(** * Sankeystr: the income-statement Sankey generator ([app.py])

    A shallow embedding of the logic of [app.py]: the row classification
    loop of the upload tab, the totals, the label list with [get_idx], and
    the construction of the three parallel link lists handed to the chart.

    Modelling choices.
    - Monetary amounts are Python floats in the script.  The logic only adds
      them, subtracts them and compares them with [0]; they are modelled as
      integers ([Z], think of minor currency units).  Sums are written in
      the order in which the script adds: [sum] folds from the left over
      the dictionary values in dictionary order.
    - A Python [dict] keeps its keys in first-insertion order and an
      assignment to an existing key replaces the value in place.  The two
      dictionaries [revenue_items] and [expense_items] are iterated in that
      order, so they are association lists updated by [dict_set].
    - [labels], [source_indices], [target_indices] and [values] are module
      level lists mutated by the script; they form the record [Chart] that a
      small state-and-error monad threads through the statements.
      [labels.index] raises [ValueError] on a missing element: [list_index]
      returns an [option] and the monad propagates [None].
    - [str.lower] is a library function that works on Unicode text with
      tables that are not part of the repository.  The classification and
      the upload loop are therefore written for an arbitrary lower-casing
      function [str_lower]; [lower] is lower-casing of the ASCII letters,
      with which [str.lower] agrees on ASCII text, and the names without
      [_with] are the instances at [lower]. *)

From Stdlib Require Import ZArith List String Ascii Bool Arith Lia.
Import ListNotations.

Local Open Scope string_scope.
Local Open Scope list_scope.
Local Open Scope Z_scope.

(* ===================================================================== *)
(** ** Strings: [str.lower] and the [in] operator                          *)
(* ===================================================================== *)

Definition lower_ascii (c : ascii) : ascii :=
  let n := nat_of_ascii c in
  if ((65 <=? n) && (n <=? 90))%nat then ascii_of_nat (n + 32) else c.

Fixpoint lower (s : string) : string :=
  match s with
  | EmptyString => EmptyString
  | String c r => String (lower_ascii c) (lower r)
  end.

(** [starts_with p s]: [s.startswith(p)]. *)
Fixpoint starts_with (p s : string) : bool :=
  match p, s with
  | EmptyString, _ => true
  | String _ _, EmptyString => false
  | String a p', String b s' => Ascii.eqb a b && starts_with p' s'
  end.

(** [contains sub s]: the Python test [sub in s] on strings. *)
Fixpoint contains (sub s : string) : bool :=
  starts_with sub s ||
  match s with
  | EmptyString => false
  | String _ r => contains sub r
  end.

(* ===================================================================== *)
(** ** The row classification of the upload tab (lines 94-104)             *)
(* ===================================================================== *)

Inductive Category : Type := Revenue | CostOfRevenue | Expense | Unknown.

Definition Category_eqb (a b : Category) : bool :=
  match a, b with
  | Revenue, Revenue | CostOfRevenue, CostOfRevenue
  | Expense, Expense | Unknown, Unknown => true
  | _, _ => false
  end.

(** The [if]/[elif] chain of lines 97-104, as the branch it selects;
    [str_lower] stands for [str.lower]. *)
Definition classify_with (str_lower : string -> string) (raw_type : string)
  : Category :=
  let row_type := str_lower raw_type in
  if contains "rev" row_type || contains "gelir" row_type then Revenue
  else if contains "cog" row_type || contains "cost" row_type
          || contains "maliyet" row_type then CostOfRevenue
  else if contains "exp" row_type || contains "gider" row_type
          || contains "tax" row_type || contains "vergi" row_type then Expense
  else Unknown.

Definition classify (raw_type : string) : Category :=
  classify_with lower raw_type.

(** The same decision the way the specification words it: an ordered table
    of categories with their keyword sets; the first category one of whose
    keywords occurs in the lower-cased text wins, no match is [Unknown]. *)
Definition keyword_table : list (Category * list string) :=
  [ (Revenue, ["rev"; "gelir"]);
    (CostOfRevenue, ["cog"; "cost"; "maliyet"]);
    (Expense, ["exp"; "gider"; "tax"; "vergi"]) ].

Definition matches_any (kws : list string) (text : string) : bool :=
  existsb (fun k => contains k text) kws.

Fixpoint first_match (table : list (Category * list string)) (text : string)
  : Category :=
  match table with
  | [] => Unknown
  | (c, kws) :: rest => if matches_any kws text then c else first_match rest text
  end.


(** Substring occurrence as a proposition, independent of [contains]. *)
Definition occurs_in (sub s : string) : Prop :=
  exists pre post, s = (pre ++ sub ++ post)%string.

Definition has_keyword (c : Category) (text : string) : Prop :=
  exists kws k, In (c, kws) keyword_table /\ In k kws /\ occurs_in k text.

(* ===================================================================== *)
(** ** Data holders (lines 54-57) and the upload loop                      *)
(* ===================================================================== *)

(** A Python [dict] from names to amounts, in insertion order. *)
Definition dict : Type := list (string * Z).

(** [d[k] = v]: an existing key keeps its place and takes the new value, a
    new key goes to the end. *)
Fixpoint dict_set (k : string) (v : Z) (d : dict) : dict :=
  match d with
  | [] => [(k, v)]
  | (k', v') :: rest =>
      if String.eqb k' k then (k', v) :: rest
      else (k', v') :: dict_set k v rest
  end.

Definition dict_keys (d : dict) : list string := map fst d.
Definition dict_values (d : dict) : list Z := map snd d.

(** Python's [sum]: a left fold of [+] from [0]. *)
Definition sum (l : list Z) : Z := fold_left Z.add l 0.

(** One row of the uploaded table after the conversions of lines 95-97:
    [str(row[0])], [float(row[1])], [str(row[2])].  A row whose value does
    not convert raises and ends the loop (line 108); the rows here are the
    converted ones. *)
Record Row : Type := mkRow {
  row_name : string;
  row_val : Z;
  row_type : string
}.

Record Holders : Type := mkHolders {
  revenue_items : dict;
  cogs_value : Z;
  expense_items : dict
}.

(** Lines 55-57. *)
Definition holders0 : Holders :=
  {| revenue_items := []; cogs_value := 0; expense_items := [] |}.

(** The body of the loop of line 94. *)
Definition process_row_with (str_lower : string -> string)
           (h : Holders) (row : Row) : Holders :=
  let name := row_name row in
  let val := row_val row in
  let row_type := str_lower (row_type row) in
  if contains "rev" row_type || contains "gelir" row_type then
    {| revenue_items := dict_set name val (revenue_items h);
       cogs_value := cogs_value h;
       expense_items := expense_items h |}
  else if contains "cog" row_type || contains "cost" row_type
          || contains "maliyet" row_type then
    {| revenue_items := revenue_items h;
       cogs_value := cogs_value h + val;
       expense_items := expense_items h |}
  else if contains "exp" row_type || contains "gider" row_type
          || contains "tax" row_type || contains "vergi" row_type then
    {| revenue_items := revenue_items h;
       cogs_value := cogs_value h;
       expense_items := dict_set name val (expense_items h) |}
  else h.

Definition process_row (h : Holders) (row : Row) : Holders :=
  process_row_with lower h row.

(** [for index, row in df.iterrows(): ...] *)
Definition load_rows_with (str_lower : string -> string)
           (rows : list Row) (h : Holders) : Holders :=
  fold_left (process_row_with str_lower) rows h.

Definition load_rows (rows : list Row) (h : Holders) : Holders :=
  load_rows_with lower rows h.

(** The manual tab (lines 111-135): two revenue sources, the cost of
    revenue and one expense, read from widgets.  The assignment of line 127
    replaces [cogs_value]. *)
Record Manual : Type := mkManual {
  r1_name : string; r1_val : Z;
  r2_name : string; r2_val : Z;
  cogs_input : Z;
  e1_name : string; e1_val : Z
}.

Definition manual_input (m : Manual) (h : Holders) : Holders :=
  {| revenue_items :=
       dict_set (r2_name m) (r2_val m)
         (dict_set (r1_name m) (r1_val m) (revenue_items h));
     cogs_value := cogs_input m;
     expense_items := dict_set (e1_name m) (e1_val m) (expense_items h) |}.

(* ===================================================================== *)
(** ** Totals (lines 141-144)                                              *)
(* ===================================================================== *)

Definition total_revenue (h : Holders) : Z := sum (dict_values (revenue_items h)).
Definition gross_profit (h : Holders) : Z := total_revenue h - cogs_value h.
Definition total_expenses (h : Holders) : Z := sum (dict_values (expense_items h)).
Definition net_income (h : Holders) : Z := gross_profit h - total_expenses h.

(* ===================================================================== *)
(** ** The language dictionary (lines 9-50)                                *)
(* ===================================================================== *)

(** The four entries of a language table that the flow construction reads:
    [t["total_revenue"]], [t["cogs_label"]], [t["gross_profit"]],
    [t["net_income"]]. *)
Record Trans : Type := mkTrans {
  tr_total_revenue : string;
  tr_cogs_label : string;
  tr_gross_profit : string;
  tr_net_income : string
}.

Inductive Lang : Type := English | Turkce.

Definition TRANS (lang : Lang) : Trans :=
  match lang with
  | English =>
      {| tr_total_revenue := "Total Revenue";
         tr_cogs_label := "Cost of Revenue (COGS)";
         tr_gross_profit := "Gross Profit";
         tr_net_income := "Net Income" |}
  | Turkce =>
      {| tr_total_revenue := "Toplam Gelir";
         tr_cogs_label := "Satışların Maliyeti (COGS)";
         tr_gross_profit := "Brüt Kâr";
         tr_net_income := "Net Kâr" |}
  end.

(* ===================================================================== *)
(** ** The lists for the chart (lines 150-153) and a monad over them       *)
(* ===================================================================== *)

Record Chart : Type := mkChart {
  labels : list string;
  source_indices : list nat;
  target_indices : list nat;
  values : list Z
}.

Definition chart0 : Chart :=
  {| labels := []; source_indices := []; target_indices := []; values := [] |}.

(** A statement of the script: it reads and updates the four lists and may
    stop on an exception ([None]). *)
Definition M (A : Type) : Type := Chart -> option (A * Chart).

Definition ret {A} (a : A) : M A := fun c => Some (a, c).

Definition bind {A B} (m : M A) (k : A -> M B) : M B :=
  fun c => match m c with
           | Some (a, c') => k a c'
           | None => None
           end.

Notation "x <- m ;; k" := (bind m (fun x => k))
  (at level 61, m at next level, right associativity).
Notation "m ;; k" := (bind m (fun _ => k))
  (at level 61, right associativity).

(** [if b: body] without an [else]. *)
Definition when (b : bool) (body : M unit) : M unit :=
  if b then body else ret tt.

(** [for x in l: body]. *)
Fixpoint for_each {X} (l : list X) (body : X -> M unit) : M unit :=
  match l with
  | [] => ret tt
  | x :: rest => body x ;; for_each rest body
  end.

(** [name in l] for a list of strings. *)
Definition list_mem (name : string) (l : list string) : bool :=
  existsb (String.eqb name) l.

(** [l.index(name)]: the first position of [name], [ValueError] if absent. *)
Fixpoint list_index (name : string) (l : list string) : option nat :=
  match l with
  | [] => None
  | x :: rest =>
      if String.eqb x name then Some 0%nat
      else option_map S (list_index name rest)
  end.

Definition labels_contains (name : string) : M bool :=
  fun c => Some (list_mem name (labels c), c).

Definition labels_append (name : string) : M unit :=
  fun c => Some (tt, {| labels := labels c ++ [name];
                        source_indices := source_indices c;
                        target_indices := target_indices c;
                        values := values c |}).

Definition labels_index (name : string) : M nat :=
  fun c => match list_index name (labels c) with
           | Some i => Some (i, c)
           | None => None
           end.

Definition source_indices_append (i : nat) : M unit :=
  fun c => Some (tt, {| labels := labels c;
                        source_indices := source_indices c ++ [i];
                        target_indices := target_indices c;
                        values := values c |}).

Definition target_indices_append (i : nat) : M unit :=
  fun c => Some (tt, {| labels := labels c;
                        source_indices := source_indices c;
                        target_indices := target_indices c ++ [i];
                        values := values c |}).

Definition values_append (v : Z) : M unit :=
  fun c => Some (tt, {| labels := labels c;
                        source_indices := source_indices c;
                        target_indices := target_indices c;
                        values := values c ++ [v] |}).

(** Lines 156-159. *)
Definition get_idx (name : string) : M nat :=
  present <- labels_contains name ;;
  when (negb present) (labels_append name) ;;
  labels_index name.

(* ===================================================================== *)
(** ** Build Flows (lines 161-202)                                         *)
(* ===================================================================== *)

Definition build_flows (t : Trans) (h : Holders) : M unit :=
  (* Flow: Revenue Sources -> Total Revenue *)
  total_rev_idx <- get_idx (tr_total_revenue t) ;;
  for_each (revenue_items h) (fun '(name, val) =>
    when (val >? 0) (
      idx <- get_idx name ;;
      source_indices_append idx ;;
      target_indices_append total_rev_idx ;;
      values_append val)) ;;
  (* Flow: Total Revenue -> COGS & Gross Profit *)
  cogs_idx <- get_idx (tr_cogs_label t) ;;
  gp_idx <- get_idx (tr_gross_profit t) ;;
  when (cogs_value h >? 0) (
    source_indices_append total_rev_idx ;;
    target_indices_append cogs_idx ;;
    values_append (cogs_value h)) ;;
  when (gross_profit h >? 0) (
    source_indices_append total_rev_idx ;;
    target_indices_append gp_idx ;;
    values_append (gross_profit h)) ;;
  (* Flow: Gross Profit -> Expenses & Net Income *)
  for_each (expense_items h) (fun '(name, val) =>
    when (val >? 0) (
      exp_idx <- get_idx name ;;
      source_indices_append gp_idx ;;
      target_indices_append exp_idx ;;
      values_append val)) ;;
  when (net_income h >? 0) (
    ni_idx <- get_idx (tr_net_income t) ;;
    source_indices_append gp_idx ;;
    target_indices_append ni_idx ;;
    values_append (net_income h)).

(** The chart lists after the script has run on the data holders [h], from
    the empty lists of lines 150-153. *)
Definition build (t : Trans) (h : Holders) : option Chart :=
  match build_flows t h chart0 with
  | Some (_, c) => Some c
  | None => None
  end.

(** The links as the chart reads them: position [i] of the three parallel
    lists. *)
Definition edges (c : Chart) : list (nat * nat * Z) :=
  combine (combine (source_indices c) (target_indices c)) (values c).

(** A link with its two indices looked up in the node list. *)
Definition edge_labels (c : Chart) : list (option string * option string * Z) :=
  map (fun '(s, t, v) => (nth_error (labels c) s, nth_error (labels c) t, v))
      (edges c).

(* ===================================================================== *)
(** ** Reference descriptions used by the statements                       *)
(* ===================================================================== *)

(** The entries of a dictionary that pass the test [val > 0]. *)
Definition positive_items (d : dict) : dict :=
  filter (fun '(_, v) => v >? 0) d.

(** The flows in the order the specification lists them, by label:
    (source label, target label, amount). *)
Definition flow_spec (t : Trans) (h : Holders) : list (string * string * Z) :=
  map (fun '(name, val) => (name, tr_total_revenue t, val))
      (positive_items (revenue_items h))
  ++ (if cogs_value h >? 0
      then [(tr_total_revenue t, tr_cogs_label t, cogs_value h)] else [])
  ++ (if gross_profit h >? 0
      then [(tr_total_revenue t, tr_gross_profit t, gross_profit h)] else [])
  ++ map (fun '(name, val) => (tr_gross_profit t, name, val))
         (positive_items (expense_items h))
  ++ (if net_income h >? 0
      then [(tr_gross_profit t, tr_net_income t, net_income h)] else []).

(** The labels in the order [get_idx] is called with them. *)
Definition requested_labels (t : Trans) (h : Holders) : list string :=
  [tr_total_revenue t]
  ++ dict_keys (positive_items (revenue_items h))
  ++ [tr_cogs_label t; tr_gross_profit t]
  ++ dict_keys (positive_items (expense_items h))
  ++ (if net_income h >? 0 then [tr_net_income t] else []).

(** What one call of [get_idx] does to the label list. *)
Definition add_label (ls : list string) (name : string) : list string :=
  if list_mem name ls then ls else ls ++ [name].

(** The position of the first occurrence ([0] on a missing element, where
    [list_index] fails). *)
Definition index_of (name : string) (ls : list string) : nat :=
  match list_index name ls with
  | Some i => i
  | None => 0%nat
  end.

(** A flow given by labels, as the index triple it is stored as. *)
Definition resolve (ls : list string) (f : string * string * Z)
  : nat * nat * Z :=
  let '(a, b, v) := f in (index_of a ls, index_of b ls, v).

(** [name] is an end point of at least one link of the chart. *)
Definition referenced (c : Chart) (name : string) : Prop :=
  exists s t v, In (s, t, v) (edges c) /\
    (nth_error (labels c) s = Some name \/ nth_error (labels c) t = Some name).

(** The (name, value) pairs of the rows of one category, in row order. *)
Definition entries_of_with (str_lower : string -> string) (cat : Category)
           (rows : list Row) : list (string * Z) :=
  map (fun r => (row_name r, row_val r))
      (filter (fun r => Category_eqb (classify_with str_lower (row_type r)) cat)
              rows).

Definition entries_of (cat : Category) (rows : list Row) : list (string * Z) :=
  entries_of_with lower cat rows.

(** The entries that are not followed by a later entry of the same name. *)
Fixpoint last_per_name (l : list (string * Z)) : list (string * Z) :=
  match l with
  | [] => []
  | (n, v) :: rest =>
      if list_mem n (map fst rest) then last_per_name rest
      else (n, v) :: last_per_name rest
  end.

(** Successive assignments [d[n] = v]. *)
Definition dict_set_all (l : list (string * Z)) (d : dict) : dict :=
  fold_left (fun d p => dict_set (fst p) (snd p) d) l d.

(** The chart with its label list replaced. *)
Definition with_labels (ls : list string) (c : Chart) : Chart :=
  {| labels := ls;
     source_indices := source_indices c;
     target_indices := target_indices c;
     values := values c |}.

(** The chart after the three [append]s that record one link. *)
Definition push_edge (s t : nat) (v : Z) (c : Chart) : Chart :=
  {| labels := labels c;
     source_indices := source_indices c ++ [s];
     target_indices := target_indices c ++ [t];
     values := values c ++ [v] |}.

(** The three link lists run in parallel. *)
Definition parallel (c : Chart) : Prop :=
  List.length (source_indices c) = List.length (target_indices c) /\
  List.length (target_indices c) = List.length (values c).

(** [i] is the index that [get_idx name] answers on the label list [ls]. *)
Definition idx_ok (ls : list string) (name : string) (i : nat) : Prop :=
  In name ls /\ i = index_of name ls.

(** The links of [c] are the flows [F], each end point stored as the index
    of its label in the label list of [c]. *)
Definition represents (c : Chart) (F : list (string * string * Z)) : Prop :=
  parallel c /\
  edges c = map (resolve (labels c)) F /\
  Forall (fun f => In (fst (fst f)) (labels c) /\ In (snd (fst f)) (labels c)) F.

(** The statement [m], started on [c], ends normally and its result and
    final chart satisfy [Q]. *)
Definition post {A} (m : M A) (c : Chart) (Q : A -> Chart -> Prop) : Prop :=
  exists a c', m c = Some (a, c') /\ Q a c'.

(** A flow with both end points present in the node list. *)
Definition lift_flow (f : string * string * Z)
  : option string * option string * Z :=
  let '(a, b, v) := f in (Some a, Some b, v).

(** Successive calls of [get_idx], collecting the results. *)
Fixpoint get_idx_all (names : list string) : M (list nat) :=
  match names with
  | [] => ret []
  | n :: rest =>
      i <- get_idx n ;;
      more <- get_idx_all rest ;;
      ret (i :: more)
  end.

(* ===================================================================== *)
(** ** The upload inside [try] (lines 83-109) and the script as a whole    *)
(* ===================================================================== *)

(** A row of the uploaded table before the conversions.  [str(row[0])] and
    [str(row[2])] always succeed; [float(row[1])] raises on a cell that is
    not a number: [raw_val] is [None] there. *)
Record RawRow : Type := mkRawRow {
  raw_name : string;
  raw_val : option Z;
  raw_type : string
}.

(** The loop of line 94 under the [try] of line 84.  The conversion of
    line 96 comes before any assignment, so a row that raises leaves the
    holders as they are; the [except] of line 108 then ends the loop, and
    the success message of line 106 ([true]) is skipped. *)
Fixpoint load_raw_with (str_lower : string -> string)
         (rows : list RawRow) (h : Holders) : Holders * bool :=
  match rows with
  | [] => (h, true)
  | r :: rest =>
      match raw_val r with
      | None => (h, false)
      | Some val =>
          load_raw_with str_lower rest
            (process_row_with str_lower h (mkRow (raw_name r) val (raw_type r)))
      end
  end.

Definition load_raw (rows : list RawRow) (h : Holders) : Holders * bool :=
  load_raw_with lower rows h.

(** The data holders when line 141 is reached: [if uploaded_file:] runs the
    upload loop ([None]: no file), and the body of the manual tab always
    runs after it. *)
Definition script_holders_with (str_lower : string -> string)
           (upload : option (list RawRow)) (m : Manual) : Holders :=
  let h := match upload with
           | Some rows => fst (load_raw_with str_lower rows holders0)
           | None => holders0
           end in
  manual_input m h.

Definition script_holders (upload : option (list RawRow)) (m : Manual)
  : Holders :=
  script_holders_with lower upload m.

(** The chart lists at the end of the script. *)
Definition script_with (str_lower : string -> string) (lang : Lang)
           (upload : option (list RawRow)) (m : Manual) : option Chart :=
  build (TRANS lang) (script_holders_with str_lower upload m).

Definition script (lang : Lang) (upload : option (list RawRow)) (m : Manual)
  : option Chart :=
  script_with lower lang upload m.

(** Line 207: the figure is drawn (otherwise the hint of line 227). *)
Definition shows_chart (h : Holders) : bool := total_revenue h >? 0.

(** The rows in front of the first one whose value does not convert. *)
Fixpoint converted_prefix (rows : list RawRow) : list Row :=
  match rows with
  | [] => []
  | r :: rest =>
      match raw_val r with
      | None => []
      | Some val => mkRow (raw_name r) val (raw_type r) :: converted_prefix rest
      end
  end.

Definition converts (r : RawRow) : bool :=
  match raw_val r with Some _ => true | None => false end.

(** The row is typed as a cost of revenue, respectively matches no
    keyword. *)
Definition is_cost_raw (str_lower : string -> string) (r : RawRow) : bool :=
  Category_eqb (classify_with str_lower (raw_type r)) CostOfRevenue.

Definition is_unknown_raw (str_lower : string -> string) (r : RawRow) : bool :=
  Category_eqb (classify_with str_lower (raw_type r)) Unknown.

(** The rows that the upload loop reads. *)
Definition upload_rows (upload : option (list RawRow)) : list Row :=
  match upload with
  | Some rows => converted_prefix rows
  | None => []
  end.

(** The revenue entries of one run of the script in the order in which
    they are assigned: the Revenue rows that the upload loop reads, then
    the two sources of the manual tab; likewise the expense entries. *)
Definition revenue_entries (str_lower : string -> string)
           (upload : option (list RawRow)) (m : Manual) : list (string * Z) :=
  entries_of_with str_lower Revenue (upload_rows upload)
  ++ [(r1_name m, r1_val m); (r2_name m, r2_val m)].

Definition expense_entries (str_lower : string -> string)
           (upload : option (list RawRow)) (m : Manual) : list (string * Z) :=
  entries_of_with str_lower Expense (upload_rows upload)
  ++ [(e1_name m, e1_val m)].

(** The value of the last entry named [n], [default] if there is none. *)
Definition last_value (n : string) (l : list (string * Z)) (default : Z) : Z :=
  fold_left (fun acc p => if String.eqb (fst p) n then snd p else acc) l default.

(** One pair per distinct name, in the order in which the names first
    appear, each with the value of the last entry of that name. *)
Definition latest (l : list (string * Z)) : dict :=
  map (fun n => (n, last_value n l 0)) (fold_left add_label (map fst l) []).

(** [d[n]] with [0] for a missing key. *)
Fixpoint dict_get (n : string) (d : dict) : Z :=
  match d with
  | [] => 0
  | (k, v) :: rest => if String.eqb k n then v else dict_get n rest
  end.

(** The text has ASCII characters only. *)
Fixpoint is_ascii (s : string) : bool :=
  match s with
  | EmptyString => true
  | String c r => (nat_of_ascii c <? 128)%nat && is_ascii r
  end.

(** Lower-casing described by the two alphabets: a capital letter becomes
    the small letter at the same place, any other character stays. *)
Definition upper_letters : string := "ABCDEFGHIJKLMNOPQRSTUVWXYZ".
Definition lower_letters : string := "abcdefghijklmnopqrstuvwxyz".

Fixpoint translate (from to : string) (c : ascii) : ascii :=
  match from, to with
  | String f from', String t to' =>
      if Ascii.eqb c f then t else translate from' to' c
  | _, _ => c
  end.

Fixpoint lower_spec (s : string) : string :=
  match s with
  | EmptyString => EmptyString
  | String c r => String (translate upper_letters lower_letters c) (lower_spec r)
  end.

(* ===================================================================== *)
(** * Properties                                                           *)
(* ===================================================================== *)

(** ** Strings *)

Lemma starts_with_spec (p s : string) :
  starts_with p s = true <-> exists r, s = (p ++ r)%string.
Proof.
  revert s. induction p as [|a p IH]; intros s; simpl.
  - split; [intros _; exists s; reflexivity | reflexivity].
  - destruct s as [|b s].
    + split; [discriminate | intros [r Hr]; discriminate].
    + rewrite andb_true_iff, Ascii.eqb_eq, IH. split.
      * intros [-> [r ->]]. exists r. reflexivity.
      * intros [r Hr]. injection Hr as -> ->. split; [reflexivity | eauto].
Qed.

Lemma contains_spec (sub s : string) :
  contains sub s = true <-> occurs_in sub s.
Proof.
  unfold occurs_in. induction s as [|c s IH].
  - simpl. rewrite orb_false_r, starts_with_spec. split.
    + intros [r Hr]. exists "", r. exact Hr.
    + intros [pre [post H]]. destruct pre; [eauto | discriminate].
  - cbn [contains]. rewrite orb_true_iff, starts_with_spec, IH. split.
    + intros [[r Hr] | [pre [post H]]].
      * exists "", r. exact Hr.
      * exists (String c pre), post. simpl. now rewrite H.
    + intros [pre [post H]]. destruct pre as [|c' pre].
      * left. exists post. exact H.
      * right. injection H as _ H. eauto.
Qed.

Lemma matches_any_spec (kws : list string) (text : string) :
  matches_any kws text = true <-> exists k, In k kws /\ occurs_in k text.
Proof.
  unfold matches_any. rewrite existsb_exists.
  split; intros [k [Hin H]]; exists k; split; auto;
    now apply contains_spec.
Qed.

Lemma has_keyword_table (c : Category) (kws : list string) (text : string) :
  In (c, kws) keyword_table ->
  (has_keyword c text <-> matches_any kws text = true).
Proof.
  intros Hin. rewrite matches_any_spec. unfold has_keyword. split.
  - intros [kws' [k [Hin' [Hk Hocc]]]]. exists k. split; [|exact Hocc].
    simpl in Hin, Hin'.
    repeat (destruct Hin as [Hin | Hin]; [injection Hin as <- <- |]);
      try contradiction;
      repeat (destruct Hin' as [Hin' | Hin'];
              [try discriminate Hin'; injection Hin' as <-; exact Hk |]);
      contradiction.
  - intros [k [Hk Hocc]]. exists kws, k. auto.
Qed.

Lemma classify_with_first_match (str_lower : string -> string)
      (raw_type : string) :
  classify_with str_lower raw_type
  = first_match keyword_table (str_lower raw_type).
Proof.
  unfold classify_with, keyword_table, first_match, matches_any.
  simpl. rewrite !orb_false_r, !orb_assoc. reflexivity.
Qed.


(** [lower] is lower-casing as the two alphabets describe it. *)
Lemma lower_ascii_translate (c : ascii) :
  lower_ascii c = translate upper_letters lower_letters c.
Proof. destruct c as [[] [] [] [] [] [] [] []]; reflexivity. Qed.

Lemma lower_lower_spec (s : string) : lower s = lower_spec s.
Proof.
  induction s as [|c s IH]; [reflexivity|].
  cbn [lower lower_spec]. now rewrite IH, lower_ascii_translate.
Qed.

Example lower_mixed_case : lower "Cost of REVENUE (2024)" = "cost of revenue (2024)".
Proof. reflexivity. Qed.

(** A type text with keywords of two categories: "cost" and "rev". *)
Example classify_cost_of_revenue : classify "Cost of Revenue" = Revenue.
Proof. reflexivity. Qed.

(** C8. Let [str_lower] be [str.lower]: on ASCII text it replaces every
    capital letter by its small letter and keeps the other characters.
    For every type text, the classification is the first-match lookup of
    the lower-cased text in the ordered keyword table (Revenue, then
    CostOfRevenue, then Expense): Revenue exactly when a Revenue keyword
    occurs in the lower-cased text, CostOfRevenue exactly when none of
    those occurs but a CostOfRevenue keyword does, Expense exactly when
    only an Expense keyword occurs, and Unknown exactly when no keyword
    occurs; it is a total function, so no input raises.  On ASCII text the
    lower-cased text is the one [lower] computes, and the classification is
    [classify]. *)
Theorem classify_first_match (str_lower : string -> string)
        (raw_type : string) :
  (forall s, is_ascii s = true -> str_lower s = lower_spec s) ->
  let text := str_lower raw_type in
  classify_with str_lower raw_type = first_match keyword_table text /\
  (classify_with str_lower raw_type = Revenue <-> has_keyword Revenue text) /\
  (classify_with str_lower raw_type = CostOfRevenue <->
     ~ has_keyword Revenue text /\ has_keyword CostOfRevenue text) /\
  (classify_with str_lower raw_type = Expense <->
     ~ has_keyword Revenue text /\ ~ has_keyword CostOfRevenue text /\
     has_keyword Expense text) /\
  (classify_with str_lower raw_type = Unknown <->
     ~ has_keyword Revenue text /\ ~ has_keyword CostOfRevenue text /\
     ~ has_keyword Expense text) /\
  (is_ascii raw_type = true ->
     text = lower raw_type /\
     classify_with str_lower raw_type = classify raw_type).
Proof.
  intros Hascii text. split; [apply classify_with_first_match|].
  assert (Hlast : is_ascii raw_type = true ->
                  text = lower raw_type /\
                  classify_with str_lower raw_type = classify raw_type).
  { intros H. assert (E : text = lower raw_type)
      by (unfold text; now rewrite (Hascii _ H), lower_lower_spec).
    split; [exact E|]. unfold classify, classify_with. fold text.
    now rewrite E. }
  split; [|split; [|split; [|split; [|exact Hlast]]]];
    rewrite classify_with_first_match; fold text;
    rewrite ?(has_keyword_table Revenue ["rev"; "gelir"] text)
      by (simpl; auto);
    rewrite ?(has_keyword_table CostOfRevenue ["cog"; "cost"; "maliyet"] text)
      by (simpl; auto);
    rewrite ?(has_keyword_table Expense ["exp"; "gider"; "tax"; "vergi"] text)
      by (simpl; auto);
    cbn [first_match keyword_table];
    destruct (matches_any ["rev"; "gelir"] text);
    destruct (matches_any ["cog"; "cost"; "maliyet"] text);
    destruct (matches_any ["exp"; "gider"; "tax"; "vergi"] text);
    repeat split; intros; try discriminate; try reflexivity;
    repeat match goal with H : _ /\ _ |- _ => destruct H end;
    try congruence.
Qed.

Lemma classify_first_match_witness :
  classify_with lower "Faaliyet GIDERI" = Expense /\
  lower "Faaliyet GIDERI" = "faaliyet gideri" /\
  has_keyword Expense "faaliyet gideri".
Proof.
  destruct (classify_first_match lower "Faaliyet GIDERI"
              (fun s _ => lower_lower_spec s))
    as [_ [_ [_ [HE [_ Hl]]]]].
  cbv zeta in HE, Hl.
  destruct (Hl eq_refl) as [Etext _].
  assert (E : classify_with lower "Faaliyet GIDERI" = Expense) by reflexivity.
  split; [exact E|]. split; [reflexivity|].
  exact (proj2 (proj2 (proj1 HE E))).
Defined.

(** ** Sums and dictionaries *)

Lemma fold_left_add_acc (l : list Z) (a : Z) :
  fold_left Z.add l a = a + fold_left Z.add l 0.
Proof.
  revert a. induction l as [|x l IH]; intros a; simpl.
  - lia.
  - rewrite (IH (a + x)), (IH x). lia.
Qed.

Lemma sum_cons (x : Z) (l : list Z) : sum (x :: l) = x + sum l.
Proof. unfold sum. simpl. apply fold_left_add_acc. Qed.

Lemma list_mem_In (name : string) (l : list string) :
  list_mem name l = true <-> In name l.
Proof.
  unfold list_mem. rewrite existsb_exists. split.
  - intros [x [Hx Heq]]. apply String.eqb_eq in Heq. now subst.
  - intros H. exists name. split; [exact H | apply String.eqb_refl].
Qed.

Lemma list_mem_not_In (name : string) (l : list string) :
  list_mem name l = false <-> ~ In name l.
Proof.
  rewrite <- list_mem_In. destruct (list_mem name l); split; congruence.
Qed.

Lemma dict_set_keys_In (k : string) (v : Z) (d : dict) (x : string) :
  In x (dict_keys (dict_set k v d)) <-> x = k \/ In x (dict_keys d).
Proof.
  induction d as [|[k' v'] d IH]; simpl.
  - intuition congruence.
  - destruct (String.eqb_spec k' k) as [-> | Hne]; simpl.
    + intuition auto.
    + rewrite IH. intuition auto.
Qed.

Lemma dict_set_NoDup (k : string) (v : Z) (d : dict) :
  NoDup (dict_keys d) -> NoDup (dict_keys (dict_set k v d)).
Proof.
  induction d as [|[k' v'] d IH]; simpl; intros H.
  - constructor; [intros [] | constructor].
  - inversion H as [|? ? Hnotin Hnd]; subst.
    destruct (String.eqb_spec k' k) as [-> | Hne]; simpl.
    + constructor; assumption.
    + constructor; [|auto].
      rewrite dict_set_keys_In. intros [-> | Hin]; congruence.
Qed.

Lemma dict_set_keys (k : string) (v : Z) (d : dict) :
  dict_keys (dict_set k v d) = add_label (dict_keys d) k.
Proof.
  unfold add_label. induction d as [|[k' v'] d IH]; [reflexivity|].
  cbn [dict_set dict_keys map fst list_mem existsb].
  fold (dict_keys d). fold (list_mem k (dict_keys d)).
  rewrite (String.eqb_sym k k').
  destruct (String.eqb k' k); cbn [orb]; [reflexivity|].
  cbn [dict_keys map fst]. fold (dict_keys (dict_set k v d)). rewrite IH.
  now destruct (list_mem k (dict_keys d)).
Qed.

Lemma dict_get_set (k : string) (v : Z) (d : dict) (n : string) :
  dict_get n (dict_set k v d) = if String.eqb k n then v else dict_get n d.
Proof.
  induction d as [|[k' v'] d IH]; [reflexivity|]. cbn [dict_set].
  destruct (String.eqb_spec k' k) as [-> | Hne]; cbn [dict_get].
  - now destruct (String.eqb k n).
  - rewrite IH. destruct (String.eqb_spec k' n) as [-> | Hn]; [|reflexivity].
    destruct (String.eqb_spec k n); [congruence | reflexivity].
Qed.

(** A dictionary is the list of its keys, each with its value. *)
Lemma dict_keys_values (d : dict) :
  NoDup (dict_keys d) -> d = map (fun n => (n, dict_get n d)) (dict_keys d).
Proof.
  induction d as [|[k v] d IH]; intros Hnd; [reflexivity|].
  inversion Hnd as [|? ? Hnotin Hnd']; subst.
  cbn [dict_keys map fst dict_get]. rewrite String.eqb_refl. f_equal.
  rewrite (IH Hnd') at 1. apply map_ext_in. intros n Hn.
  destruct (String.eqb_spec k n) as [-> | _]; [contradiction | reflexivity].
Qed.

Lemma dict_set_all_app (l1 l2 : list (string * Z)) (d : dict) :
  dict_set_all (l1 ++ l2) d = dict_set_all l2 (dict_set_all l1 d).
Proof. unfold dict_set_all. apply fold_left_app. Qed.

(** After successive assignments the dictionary holds its old keys and
    the new names in order of first appearance, each with the value
    assigned last. *)
Lemma dict_set_all_values (l : list (string * Z)) (d : dict) :
  NoDup (dict_keys d) ->
  dict_set_all l d
  = map (fun n => (n, last_value n l (dict_get n d)))
        (fold_left add_label (map fst l) (dict_keys d)).
Proof.
  revert d. induction l as [|[k v] l IH]; intros d Hnd.
  - now apply dict_keys_values.
  - cbn [dict_set_all fold_left map fst snd].
    fold (dict_set_all l (dict_set k v d)).
    rewrite (IH _ (dict_set_NoDup k v d Hnd)), dict_set_keys.
    apply map_ext. intros n. unfold last_value. cbn [fold_left fst snd].
    now rewrite dict_get_set.
Qed.

Lemma dict_set_all_latest (l : list (string * Z)) :
  dict_set_all l [] = latest l.
Proof. apply (dict_set_all_values l []). constructor. Qed.

(** ** The upload loop and the totals *)

Lemma process_row_with_classify (str_lower : string -> string)
      (h : Holders) (row : Row) :
  process_row_with str_lower h row =
  match classify_with str_lower (row_type row) with
  | Revenue =>
      {| revenue_items := dict_set (row_name row) (row_val row) (revenue_items h);
         cogs_value := cogs_value h;
         expense_items := expense_items h |}
  | CostOfRevenue =>
      {| revenue_items := revenue_items h;
         cogs_value := cogs_value h + row_val row;
         expense_items := expense_items h |}
  | Expense =>
      {| revenue_items := revenue_items h;
         cogs_value := cogs_value h;
         expense_items := dict_set (row_name row) (row_val row) (expense_items h) |}
  | Unknown => h
  end.
Proof.
  unfold process_row_with, classify_with.
  destruct (contains "rev" _ || contains "gelir" _); [reflexivity|].
  destruct (contains "cog" _ || contains "cost" _ || contains "maliyet" _);
    [reflexivity|].
  destruct (contains "exp" _ || contains "gider" _ || contains "tax" _
            || contains "vergi" _); reflexivity.
Qed.

(** The loop treats the three categories apart from each other. *)
Lemma load_rows_with_by_category (str_lower : string -> string)
      (rows : list Row) (h : Holders) :
  load_rows_with str_lower rows h =
  {| revenue_items :=
       dict_set_all (entries_of_with str_lower Revenue rows) (revenue_items h);
     cogs_value :=
       cogs_value h + sum (map snd (entries_of_with str_lower CostOfRevenue rows));
     expense_items :=
       dict_set_all (entries_of_with str_lower Expense rows) (expense_items h) |}.
Proof.
  revert h. induction rows as [|row rows IH]; intros h.
  - destruct h as [r c e]. cbn. unfold sum. cbn. f_equal. lia.
  - unfold load_rows_with. cbn [fold_left].
    fold (load_rows_with str_lower rows (process_row_with str_lower h row)).
    rewrite IH, process_row_with_classify.
    unfold entries_of_with. cbn [filter].
    destruct (classify_with str_lower (row_type row));
      cbn [Category_eqb map revenue_items cogs_value expense_items
           dict_set_all fold_left fst snd];
      f_equal; rewrite ?sum_cons; lia.
Qed.

Lemma load_raw_with_run (str_lower : string -> string)
      (rows : list RawRow) (h : Holders) :
  load_raw_with str_lower rows h
  = (load_rows_with str_lower (converted_prefix rows) h, forallb converts rows).
Proof.
  revert h. induction rows as [|r rows IH]; intros h; [reflexivity|].
  cbn [load_raw_with converted_prefix forallb]. unfold converts at 1.
  destruct (raw_val r) as [val|]; [|reflexivity].
  rewrite IH. reflexivity.
Qed.

Lemma script_holders_with_run (str_lower : string -> string)
      (upload : option (list RawRow)) (m : Manual) :
  script_holders_with str_lower upload m
  = manual_input m (load_rows_with str_lower (upload_rows upload) holders0).
Proof.
  unfold script_holders_with. destruct upload as [rows|]; [|reflexivity].
  now rewrite load_raw_with_run.
Qed.

(** C6 fails when two Revenue rows carry the same name: the second
    assignment [revenue_items[name] = val] replaces the first amount.  With
    the rows (A, 10, Revenue) and (A, 20, Revenue) and the default entries
    of the manual tab the total revenue is 20 + 100 + 50, whether the
    claim's sum runs over the uploaded rows alone (30) or over the uploaded
    and the manual entries (180). *)
Lemma totals_duplicate_name_counterexample :
  ~ (forall (upload : option (list RawRow)) (m : Manual),
       total_revenue (script_holders upload m)
       = sum (map snd (revenue_entries lower upload m)))
  /\
  ~ (forall (upload : option (list RawRow)) (m : Manual),
       total_revenue (script_holders upload m)
       = sum (map snd (entries_of Revenue (upload_rows upload)))).
Proof.
  pose (upload := Some [ mkRawRow "A" (Some 10) "Revenue";
                         mkRawRow "A" (Some 20) "Revenue" ]).
  pose (m := {| r1_name := "Product A"; r1_val := 100;
                r2_name := "Services"; r2_val := 50;
                cogs_input := 60; e1_name := "R&D"; e1_val := 20 |}).
  split; intros H; specialize (H upload m); vm_compute in H; discriminate H.
Qed.

(** C6, amended.  When line 141 is reached, the revenue dictionary holds
    one value per distinct name among the revenue entries (the Revenue rows
    that the upload loop has read, followed by the two sources of the
    manual tab), in order of first appearance: the value of the last entry
    of that name; [total_revenue] is the sum of these values.  The expense
    dictionary and [total_expenses] are the same function of the expense
    entries (the Expense rows read, followed by the expense of the manual
    tab).  Rows of unknown type are in neither.  This holds for every
    lower-casing function. *)
Theorem totals_of_rows (str_lower : string -> string)
        (upload : option (list RawRow)) (m : Manual) :
  let h := script_holders_with str_lower upload m in
  revenue_items h = latest (revenue_entries str_lower upload m) /\
  total_revenue h = sum (map snd (latest (revenue_entries str_lower upload m))) /\
  expense_items h = latest (expense_entries str_lower upload m) /\
  total_expenses h = sum (map snd (latest (expense_entries str_lower upload m))).
Proof.
  intros h.
  assert (Hr : revenue_items h = latest (revenue_entries str_lower upload m)).
  { unfold h. rewrite script_holders_with_run, load_rows_with_by_category.
    unfold revenue_entries. rewrite <- dict_set_all_latest, dict_set_all_app.
    reflexivity. }
  assert (He : expense_items h = latest (expense_entries str_lower upload m)).
  { unfold h. rewrite script_holders_with_run, load_rows_with_by_category.
    unfold expense_entries. rewrite <- dict_set_all_latest, dict_set_all_app.
    reflexivity. }
  unfold total_revenue, total_expenses, dict_values. rewrite <- Hr, <- He.
  auto.
Qed.

(** The manual tab runs after the upload loop: its widgets add two revenue
    sources and one expense to the dictionaries, and line 127 assigns
    [cogs_value], whatever the upload had accumulated. *)
Lemma manual_input_cogs (m : Manual) (h : Holders) :
  cogs_value (manual_input m h) = cogs_input m /\
  In (r2_name m) (dict_keys (revenue_items (manual_input m h))) /\
  In (r1_name m) (dict_keys (revenue_items (manual_input m h))) /\
  In (e1_name m) (dict_keys (expense_items (manual_input m h))).
Proof.
  unfold manual_input. cbn [cogs_value revenue_items expense_items].
  rewrite !dict_set_keys_In. repeat split; auto.
Qed.

(** C7. The two derived figures are the plain differences, for all data
    holders and in particular after any upload: [gross_profit] is
    [total_revenue - cogs_value] and [net_income] is
    [gross_profit - total_expenses], with no clamping at zero; both are
    negative on the holders of scenario B. *)
Theorem profit_differences :
  (forall h : Holders,
     gross_profit h = total_revenue h - cogs_value h /\
     net_income h = gross_profit h - total_expenses h /\
     net_income h = total_revenue h - cogs_value h - total_expenses h) /\
  (forall rows : list Row,
     let h := load_rows rows holders0 in
     gross_profit h
       = sum (dict_values (revenue_items h)) - cogs_value h /\
     net_income h
       = sum (dict_values (revenue_items h)) - cogs_value h
         - sum (dict_values (expense_items h))) /\
  (let h := {| revenue_items := [("A", 30)]; cogs_value := 50;
               expense_items := [("R&D", 20)] |} in
   gross_profit h = -20 /\ net_income h = -40).
Proof.
  split; [|split].
  - intros h. unfold net_income, gross_profit. repeat split.
  - intros rows h. unfold net_income, gross_profit, total_revenue,
      total_expenses. split; reflexivity.
  - split; reflexivity.
Qed.

(** ** The label list and [get_idx] *)

Lemma list_index_In (name : string) (ls : list string) :
  In name ls -> list_index name ls = Some (index_of name ls).
Proof.
  unfold index_of. induction ls as [|x ls IH]; simpl; intros H; [contradiction|].
  destruct (String.eqb_spec x name) as [-> | Hne]; [reflexivity|].
  destruct H as [H | H]; [contradiction|].
  rewrite (IH H). reflexivity.
Qed.

Lemma index_of_cons (name x : string) (ls : list string) :
  In name (x :: ls) ->
  index_of name (x :: ls) = if String.eqb x name then 0%nat else S (index_of name ls).
Proof.
  intros H. unfold index_of. simpl.
  destruct (String.eqb_spec x name) as [-> | Hne]; [reflexivity|].
  destruct H as [H | H]; [contradiction|].
  rewrite (list_index_In _ _ H). reflexivity.
Qed.

Lemma index_of_app (name : string) (ls more : list string) :
  In name ls -> index_of name (ls ++ more) = index_of name ls.
Proof.
  induction ls as [|x ls IH]; intros H; [contradiction|].
  rewrite <- app_comm_cons, !index_of_cons
    by (try exact H; rewrite app_comm_cons; apply in_or_app; now left).
  destruct (String.eqb_spec x name) as [-> | Hne]; [reflexivity|].
  destruct H as [H | H]; [contradiction|]. now rewrite IH.
Qed.

Lemma index_of_fresh (name : string) (ls : list string) :
  ~ In name ls -> index_of name (ls ++ [name]) = List.length ls.
Proof.
  induction ls as [|x ls IH]; intros H.
  - unfold index_of. simpl. now rewrite String.eqb_refl.
  - rewrite <- app_comm_cons, index_of_cons
      by (right; apply in_or_app; right; now left).
    destruct (String.eqb_spec x name) as [-> | Hne].
    + exfalso. apply H. now left.
    + simpl. f_equal. apply IH. intros Hin. apply H. now right.
Qed.

Lemma index_of_lt (name : string) (ls : list string) :
  In name ls -> (index_of name ls < List.length ls)%nat.
Proof.
  induction ls as [|x ls IH]; intros H; [contradiction|].
  rewrite index_of_cons by exact H. simpl.
  destruct (String.eqb_spec x name) as [-> | Hne]; [lia|].
  destruct H as [H | H]; [contradiction|]. specialize (IH H). lia.
Qed.

Lemma nth_error_index_of (name : string) (ls : list string) :
  In name ls -> nth_error ls (index_of name ls) = Some name.
Proof.
  induction ls as [|x ls IH]; intros H; [contradiction|].
  rewrite index_of_cons by exact H.
  destruct (String.eqb_spec x name) as [-> | Hne]; [reflexivity|].
  destruct H as [H | H]; [contradiction|]. simpl. now apply IH.
Qed.

Lemma add_label_In (ls : list string) (name x : string) :
  In x (add_label ls name) <-> In x ls \/ x = name.
Proof.
  unfold add_label. destruct (list_mem name ls) eqn:E.
  - apply list_mem_In in E. split; [auto | intros [H | ->]; auto].
  - rewrite in_app_iff. simpl. intuition auto.
Qed.

Lemma add_label_extends (ls : list string) (name : string) :
  exists more, add_label ls name = ls ++ more.
Proof.
  unfold add_label. destruct (list_mem name ls).
  - exists []. now rewrite app_nil_r.
  - now exists [name].
Qed.

Lemma add_label_NoDup (ls : list string) (name : string) :
  NoDup ls -> NoDup (add_label ls name).
Proof.
  intros H. unfold add_label. destruct (list_mem name ls) eqn:E; [exact H|].
  apply list_mem_not_In in E.
  apply NoDup_app; [exact H | constructor; [intros [] | constructor] |].
  intros x Hx [<- | []]. contradiction.
Qed.

Lemma fold_add_label_In (names ls : list string) (x : string) :
  In x (fold_left add_label names ls) <-> In x ls \/ In x names.
Proof.
  revert ls. induction names as [|n names IH]; intros ls; simpl.
  - tauto.
  - rewrite IH, add_label_In. intuition auto.
Qed.

Lemma fold_add_label_extends (names ls : list string) :
  exists more, fold_left add_label names ls = ls ++ more.
Proof.
  revert ls. induction names as [|n names IH]; intros ls; simpl.
  - exists []. now rewrite app_nil_r.
  - destruct (add_label_extends ls n) as [m1 E1].
    destruct (IH (add_label ls n)) as [m2 E2].
    exists (m1 ++ m2). now rewrite E2, E1, app_assoc.
Qed.

Lemma fold_add_label_NoDup (names ls : list string) :
  NoDup ls -> NoDup (fold_left add_label names ls).
Proof.
  revert ls. induction names as [|n names IH]; intros ls H; simpl; [exact H|].
  apply IH. now apply add_label_NoDup.
Qed.

(** One call of [get_idx]: it never fails, the label list becomes
    [add_label (labels c) name] and the answer is the position of [name]
    in it. *)
Lemma get_idx_run (name : string) (c : Chart) :
  get_idx name c =
  Some (index_of name (add_label (labels c) name),
        with_labels (add_label (labels c) name) c).
Proof.
  unfold get_idx, bind, labels_contains, when, labels_append, labels_index,
    add_label, with_labels, ret.
  destruct (list_mem name (labels c)) eqn:E; cbn [negb labels].
  - apply list_mem_In in E. rewrite (list_index_In _ _ E).
    destruct c; reflexivity.
  - assert (Hin : In name (labels c ++ [name]))
      by (apply in_or_app; right; now left).
    rewrite (list_index_In _ _ Hin). reflexivity.
Qed.

(** ** Running statements: postconditions *)

Lemma post_ret {A} (a : A) (c : Chart) (Q : A -> Chart -> Prop) :
  Q a c -> post (ret a) c Q.
Proof. intros H. exists a, c. split; [reflexivity | exact H]. Qed.

Lemma post_bind {A B} (m : M A) (k : A -> M B) (c : Chart)
      (Q : B -> Chart -> Prop) :
  post m c (fun a c' => post (k a) c' Q) -> post (bind m k) c Q.
Proof.
  intros [a [c' [Hm [b [c'' [Hk HQ]]]]]]. exists b, c''. split; [|exact HQ].
  unfold bind. rewrite Hm. exact Hk.
Qed.

Lemma post_weaken {A} (m : M A) (c : Chart) (Q Q' : A -> Chart -> Prop) :
  post m c Q -> (forall a c', Q a c' -> Q' a c') -> post m c Q'.
Proof.
  intros [a [c' [Hm HQ]]] H. exists a, c'. split; [exact Hm | now apply H].
Qed.

Lemma combine_snoc {A B} (l : list A) (l' : list B) (a : A) (b : B) :
  List.length l = List.length l' ->
  combine (l ++ [a]) (l' ++ [b]) = combine l l' ++ [(a, b)].
Proof.
  revert l'. induction l as [|x l IH]; intros [|y l'] H; simpl in *;
    try discriminate; [reflexivity|].
  f_equal. apply IH. now injection H.
Qed.

Lemma edges_push_edge (s t : nat) (v : Z) (c : Chart) :
  parallel c ->
  parallel (push_edge s t v c) /\
  edges (push_edge s t v c) = edges c ++ [(s, t, v)].
Proof.
  intros [H1 H2]. unfold parallel, edges, push_edge. cbn.
  rewrite !length_app. cbn. split; [lia|].
  rewrite (combine_snoc _ _ s t H1). apply combine_snoc.
  rewrite length_combine. lia.
Qed.

Lemma idx_ok_extends (ls more : list string) (name : string) (i : nat) :
  idx_ok ls name i -> idx_ok (ls ++ more) name i.
Proof.
  intros [Hin ->]. split.
  - apply in_or_app. now left.
  - symmetry. now apply index_of_app.
Qed.

Lemma represents_chart0 : represents chart0 [].
Proof. repeat split. constructor. Qed.

Lemma represents_extends (c : Chart) F (more : list string) :
  represents c F -> represents (with_labels (labels c ++ more) c) F.
Proof.
  intros [Hp [He Hin]]. split; [exact Hp | split].
  - change (edges (with_labels (labels c ++ more) c)) with (edges c).
    rewrite He. cbn [with_labels labels]. apply map_ext_in.
    intros [[a b] v] Hf. rewrite Forall_forall in Hin.
    destruct (Hin _ Hf) as [Ha Hb]. cbn in Ha, Hb. unfold resolve.
    now rewrite !index_of_app.
  - cbn [with_labels labels]. eapply Forall_impl; [|exact Hin].
    intros f [Ha Hb]. split; apply in_or_app; now left.
Qed.

Lemma represents_push (c : Chart) F (a b : string) (i j : nat) (v : Z) :
  represents c F -> idx_ok (labels c) a i -> idx_ok (labels c) b j ->
  represents (push_edge i j v c) (F ++ [(a, b, v)]).
Proof.
  intros [Hp [He Hin]] [Ha ->] [Hb ->].
  destruct (edges_push_edge (index_of a (labels c)) (index_of b (labels c)) v c Hp)
    as [Hp' He'].
  split; [exact Hp' | split].
  - rewrite He', He, map_app. reflexivity.
  - apply Forall_app. split; [exact Hin|]. constructor; [|constructor].
    cbn. auto.
Qed.

Lemma get_idx_post (c : Chart) F (name : string) :
  represents c F ->
  post (get_idx name) c (fun i c' =>
    labels c' = add_label (labels c) name /\
    represents c' F /\ idx_ok (labels c') name i).
Proof.
  intros HR. exists (index_of name (add_label (labels c) name)),
    (with_labels (add_label (labels c) name) c).
  split; [apply get_idx_run|]. split; [reflexivity|]. split.
  - destruct (add_label_extends (labels c) name) as [more ->].
    now apply represents_extends.
  - split; [|reflexivity]. cbn. apply add_label_In. now right.
Qed.

(** The three [append]s that record one link. *)
Lemma record_link_post (c : Chart) F (a b : string) (i j : nat) (v : Z) :
  represents c F -> idx_ok (labels c) a i -> idx_ok (labels c) b j ->
  post (source_indices_append i ;; target_indices_append j ;; values_append v) c
       (fun _ c' => labels c' = labels c /\ represents c' (F ++ [(a, b, v)])).
Proof.
  intros HR Ha Hb. exists tt, (push_edge i j v c).
  split; [reflexivity|]. split; [reflexivity|].
  now apply represents_push.
Qed.

Lemma when_link_post (cond : bool) (c : Chart) F (a b : string) (i j : nat)
      (v : Z) :
  represents c F -> idx_ok (labels c) a i -> idx_ok (labels c) b j ->
  post (when cond (source_indices_append i ;; target_indices_append j ;;
                   values_append v)) c
       (fun _ c' => labels c' = labels c /\
                    represents c' (F ++ if cond then [(a, b, v)] else [])).
Proof.
  intros HR Ha Hb. destruct cond; simpl.
  - now apply record_link_post.
  - apply post_ret. rewrite app_nil_r. auto.
Qed.

(** The loop over the revenue items (lines 166-171). *)
Lemma revenue_loop_post (TR : string) (tri : nat) (d : dict) :
  forall (c : Chart) F,
  represents c F -> idx_ok (labels c) TR tri ->
  post (for_each d (fun '(name, val) =>
          when (val >? 0) (
            idx <- get_idx name ;;
            source_indices_append idx ;;
            target_indices_append tri ;;
            values_append val))) c
       (fun _ c' =>
          labels c' = fold_left add_label (dict_keys (positive_items d)) (labels c) /\
          represents c' (F ++ map (fun '(name, val) => (name, TR, val))
                                  (positive_items d))).
Proof.
  induction d as [|[name val] d IH]; intros c F HR Hi.
  - apply post_ret. cbn. rewrite app_nil_r. auto.
  - cbn [for_each]. apply post_bind. cbn [positive_items filter].
    fold (positive_items d). destruct (val >? 0); cbn [when].
    + apply post_bind.
      eapply post_weaken; [apply (get_idx_post c F name HR)|].
      intros idx c1 (Hl1 & HR1 & Hidx).
      assert (Hi1 : idx_ok (labels c1) TR tri).
      { rewrite Hl1. destruct (add_label_extends (labels c) name) as [m ->].
        now apply idx_ok_extends. }
      eapply post_weaken; [apply (record_link_post c1 F name TR idx tri val HR1 Hidx Hi1)|].
      intros _ c2 (Hl2 & HR2). rewrite <- Hl2 in Hi1.
      eapply post_weaken; [apply (IH c2 _ HR2 Hi1)|].
      intros _ c3 (Hl3 & HR3). cbn [dict_keys map fst fold_left].
      rewrite <- app_assoc in HR3. split; [|exact HR3].
      rewrite Hl3, Hl2, Hl1. reflexivity.
    + apply post_ret. apply (IH c F HR Hi).
Qed.

(** The loop over the expense items (lines 190-195). *)
Lemma expense_loop_post (GP : string) (gpi : nat) (d : dict) :
  forall (c : Chart) F,
  represents c F -> idx_ok (labels c) GP gpi ->
  post (for_each d (fun '(name, val) =>
          when (val >? 0) (
            exp_idx <- get_idx name ;;
            source_indices_append gpi ;;
            target_indices_append exp_idx ;;
            values_append val))) c
       (fun _ c' =>
          labels c' = fold_left add_label (dict_keys (positive_items d)) (labels c) /\
          represents c' (F ++ map (fun '(name, val) => (GP, name, val))
                                  (positive_items d))).
Proof.
  induction d as [|[name val] d IH]; intros c F HR Hi.
  - apply post_ret. cbn. rewrite app_nil_r. auto.
  - cbn [for_each]. apply post_bind. cbn [positive_items filter].
    fold (positive_items d). destruct (val >? 0); cbn [when].
    + apply post_bind.
      eapply post_weaken; [apply (get_idx_post c F name HR)|].
      intros idx c1 (Hl1 & HR1 & Hidx).
      assert (Hi1 : idx_ok (labels c1) GP gpi).
      { rewrite Hl1. destruct (add_label_extends (labels c) name) as [m ->].
        now apply idx_ok_extends. }
      eapply post_weaken; [apply (record_link_post c1 F GP name gpi idx val HR1 Hi1 Hidx)|].
      intros _ c2 (Hl2 & HR2). rewrite <- Hl2 in Hi1.
      eapply post_weaken; [apply (IH c2 _ HR2 Hi1)|].
      intros _ c3 (Hl3 & HR3). cbn [dict_keys map fst fold_left].
      rewrite <- app_assoc in HR3. split; [|exact HR3].
      rewrite Hl3, Hl2, Hl1. reflexivity.
    + apply post_ret. apply (IH c F HR Hi).
Qed.

(** The closing block (lines 198-202). *)
Lemma net_income_post (cond : bool) (GP NI : string) (gpi : nat) (v : Z)
      (c : Chart) F :
  represents c F -> idx_ok (labels c) GP gpi ->
  post (when cond (
          ni_idx <- get_idx NI ;;
          source_indices_append gpi ;;
          target_indices_append ni_idx ;;
          values_append v)) c
       (fun _ c' =>
          labels c' = fold_left add_label (if cond then [NI] else []) (labels c) /\
          represents c' (F ++ if cond then [(GP, NI, v)] else [])).
Proof.
  intros HR Hi. destruct cond; cbn [when fold_left].
  - apply post_bind.
    eapply post_weaken; [apply (get_idx_post c F NI HR)|].
    intros idx c1 (Hl1 & HR1 & Hidx).
    assert (Hi1 : idx_ok (labels c1) GP gpi).
    { rewrite Hl1. destruct (add_label_extends (labels c) NI) as [m ->].
      now apply idx_ok_extends. }
    eapply post_weaken; [apply (record_link_post c1 F GP NI gpi idx v HR1 Hi1 Hidx)|].
    intros _ c2 (Hl2 & HR2). split; [congruence | exact HR2].
  - apply post_ret. rewrite app_nil_r. auto.
Qed.

(** ** The whole construction *)

Lemma idx_ok_fold (names ls : list string) (name : string) (i : nat) :
  idx_ok ls name i -> idx_ok (fold_left add_label names ls) name i.
Proof.
  intros H. destruct (fold_add_label_extends names ls) as [more ->].
  now apply idx_ok_extends.
Qed.

Lemma idx_ok_add (ls : list string) (n name : string) (i : nat) :
  idx_ok ls name i -> idx_ok (add_label ls n) name i.
Proof. apply (idx_ok_fold [n]). Qed.

Lemma build_flows_post (t : Trans) (h : Holders) :
  post (build_flows t h) chart0 (fun _ c =>
    labels c = fold_left add_label (requested_labels t h) [] /\
    represents c (flow_spec t h)).
Proof.
  unfold build_flows.
  apply post_bind. eapply post_weaken;
    [apply (get_idx_post chart0 [] _ represents_chart0)|].
  intros tri c1 (Hl1 & HR1 & Htr1).
  apply post_bind. eapply post_weaken;
    [apply (revenue_loop_post _ _ _ c1 _ HR1 Htr1)|].
  intros _ c2 (Hl2 & HR2).
  assert (Htr2 : idx_ok (labels c2) (tr_total_revenue t) tri)
    by (rewrite Hl2; now apply idx_ok_fold).
  apply post_bind. eapply post_weaken; [apply (get_idx_post c2 _ _ HR2)|].
  intros cogs_idx c3 (Hl3 & HR3 & Hcg3).
  assert (Htr3 : idx_ok (labels c3) (tr_total_revenue t) tri)
    by (rewrite Hl3; now apply idx_ok_add).
  apply post_bind. eapply post_weaken; [apply (get_idx_post c3 _ _ HR3)|].
  intros gp_idx c4 (Hl4 & HR4 & Hgp4).
  assert (Htr4 : idx_ok (labels c4) (tr_total_revenue t) tri)
    by (rewrite Hl4; now apply idx_ok_add).
  assert (Hcg4 : idx_ok (labels c4) (tr_cogs_label t) cogs_idx)
    by (rewrite Hl4; now apply idx_ok_add).
  apply post_bind. eapply post_weaken;
    [apply (when_link_post _ c4 _ _ _ _ _ _ HR4 Htr4 Hcg4)|].
  intros _ c5 (Hl5 & HR5). rewrite <- Hl5 in Htr4, Hgp4.
  apply post_bind. eapply post_weaken;
    [apply (when_link_post _ c5 _ _ _ _ _ _ HR5 Htr4 Hgp4)|].
  intros _ c6 (Hl6 & HR6). rewrite <- Hl6 in Hgp4.
  apply post_bind. eapply post_weaken;
    [apply (expense_loop_post _ _ _ c6 _ HR6 Hgp4)|].
  intros _ c7 (Hl7 & HR7).
  assert (Hgp7 : idx_ok (labels c7) (tr_gross_profit t) gp_idx)
    by (rewrite Hl7; now apply idx_ok_fold).
  eapply post_weaken; [apply (net_income_post _ _ _ _ _ c7 _ HR7 Hgp7)|].
  intros _ c8 (Hl8 & HR8). split.
  - rewrite Hl8, Hl7, Hl6, Hl5, Hl4, Hl3, Hl2, Hl1.
    unfold requested_labels.
    rewrite (fold_left_app add_label [tr_total_revenue t]),
      (fold_left_app add_label (dict_keys (positive_items (revenue_items h)))),
      (fold_left_app add_label [tr_cogs_label t; tr_gross_profit t]),
      (fold_left_app add_label (dict_keys (positive_items (expense_items h)))).
    reflexivity.
  - unfold flow_spec. rewrite <- !app_assoc in HR8. exact HR8.
Qed.

(** The script always reaches its end; the node list is the list of the
    requested labels without repetitions, in first-request order, and the
    links are the flows of [flow_spec] with every end point stored as the
    index of its label. *)
Lemma build_spec (t : Trans) (h : Holders) :
  exists c, build t h = Some c /\
    labels c = fold_left add_label (requested_labels t h) [] /\
    represents c (flow_spec t h).
Proof.
  destruct (build_flows_post t h) as [[] [c [Hrun H]]].
  exists c. unfold build. rewrite Hrun. auto.
Qed.

Lemma represents_edge_labels (c : Chart) F :
  represents c F -> edge_labels c = map lift_flow F.
Proof.
  intros [_ [He Hin]]. unfold edge_labels. rewrite He, map_map.
  apply map_ext_in. intros [[a b] v] Hf. rewrite Forall_forall in Hin.
  destruct (Hin _ Hf) as [Ha Hb]. cbn in Ha, Hb. cbn.
  now rewrite !nth_error_index_of.
Qed.

Lemma parallel_projections (c : Chart) :
  parallel c ->
  source_indices c = map (fun e => fst (fst e)) (edges c) /\
  target_indices c = map (fun e => snd (fst e)) (edges c) /\
  values c = map snd (edges c).
Proof.
  unfold parallel, edges. destruct c as [ls src tgt vals]. cbn.
  revert tgt vals. induction src as [|s src IH]; intros [|t tgt] [|v vals] [H1 H2];
    simpl in *; try discriminate; [auto|].
  destruct (IH tgt vals) as [E1 [E2 E3]]; [split; congruence|].
  repeat split; f_equal; assumption.
Qed.

Lemma flow_spec_positive (t : Trans) (h : Holders) :
  Forall (fun f => snd f > 0) (flow_spec t h).
Proof.
  assert (Hpos : forall (d : dict) (g : string * Z -> string * string * Z),
            (forall p, snd (g p) = snd p) ->
            Forall (fun f => snd f > 0) (map g (positive_items d))).
  { intros d g Hg. apply Forall_forall. intros f Hf.
    apply in_map_iff in Hf. destruct Hf as [[n v] [<- Hin]].
    apply filter_In in Hin. destruct Hin as [_ Hv]. rewrite Hg. cbn. lia. }
  unfold flow_spec.
  apply Forall_app; split; [apply Hpos; now intros [n v]|].
  apply Forall_app; split.
  { destruct (cogs_value h >? 0) eqn:E; constructor; [cbn; lia | constructor]. }
  apply Forall_app; split.
  { destruct (gross_profit h >? 0) eqn:E; constructor; [cbn; lia | constructor]. }
  apply Forall_app; split; [apply Hpos; now intros [n v]|].
  destruct (net_income h >? 0) eqn:E; constructor; [cbn; lia | constructor].
Qed.

Lemma resolve_snd (ls : list string) (f : string * string * Z) :
  snd (resolve ls f) = snd f.
Proof. now destruct f as [[a b] v]. Qed.

Lemma represents_values_positive (c : Chart) F :
  represents c F -> Forall (fun f => snd f > 0) F ->
  Forall (fun e => snd e > 0) (edges c).
Proof.
  intros [_ [He _]] HF. rewrite He. apply Forall_map.
  eapply Forall_impl; [|exact HF]. intros f Hf. now rewrite resolve_snd.
Qed.

Lemma represents_indices_valid (c : Chart) F :
  represents c F ->
  Forall (fun e => (fst (fst e) < List.length (labels c))%nat /\
                   (snd (fst e) < List.length (labels c))%nat) (edges c).
Proof.
  intros [_ [He Hin]]. rewrite He. apply Forall_map.
  eapply Forall_impl; [|exact Hin]. intros [[a b] v] [Ha Hb]. cbn in *.
  split; now apply index_of_lt.
Qed.

(** ** The claims about the links *)

(** C1. The links come out in the order of [flow_spec]: one link
    (item -> Total Revenue) per revenue item with a positive value, in
    dictionary order; then (Total Revenue -> cost of revenue) if
    [cogs_value > 0]; then (Total Revenue -> Gross Profit) if
    [gross_profit > 0]; then one link (Gross Profit -> item) per expense
    item with a positive value, in dictionary order; last
    (Gross Profit -> Net Income) if [net_income > 0].  On scenario A
    (revenue A: 100, B: 50; cost of revenue 60; expense R&D: 20) the totals
    are 150, 90, 20, 70 and the six links are exactly those of the
    specification. *)
Theorem edge_emission_order :
  (forall (t : Trans) (h : Holders),
     exists c, build t h = Some c /\
       edge_labels c = map lift_flow (flow_spec t h)) /\
  (let h := {| revenue_items := [("A", 100); ("B", 50)];
               cogs_value := 60;
               expense_items := [("R&D", 20)] |} in
   total_revenue h = 150 /\ gross_profit h = 90 /\
   total_expenses h = 20 /\ net_income h = 70 /\
   option_map edge_labels (build (TRANS English) h) =
     Some [ (Some "A", Some "Total Revenue", 100);
            (Some "B", Some "Total Revenue", 50);
            (Some "Total Revenue", Some "Cost of Revenue (COGS)", 60);
            (Some "Total Revenue", Some "Gross Profit", 90);
            (Some "Gross Profit", Some "R&D", 20);
            (Some "Gross Profit", Some "Net Income", 70) ] /\
   option_map labels (build (TRANS English) h) =
     Some [ "Total Revenue"; "A"; "B"; "Cost of Revenue (COGS)";
            "Gross Profit"; "R&D"; "Net Income" ] /\
   option_map edges (build (TRANS English) h) =
     Some [ (1%nat, 0%nat, 100); (2%nat, 0%nat, 50); (0%nat, 3%nat, 60);
            (0%nat, 4%nat, 90); (4%nat, 5%nat, 20); (4%nat, 6%nat, 70) ]).
Proof.
  split.
  - intros t h. destruct (build_spec t h) as [c [Hb [_ HR]]].
    exists c. split; [exact Hb | now apply represents_edge_labels].
  - cbv zeta. repeat split; vm_compute; reflexivity.
Qed.

(** C4. Every link of the chart has a value [> 0]: this holds of the
    entries of [values] and of the triples read off the three parallel
    lists, which have one common length. *)
Theorem edge_values_positive (t : Trans) (h : Holders) :
  exists c, build t h = Some c /\
    Forall (fun e => snd e > 0) (edges c) /\
    Forall (fun v => v > 0) (values c) /\
    parallel c.
Proof.
  destruct (build_spec t h) as [c [Hb [_ HR]]]. exists c.
  pose proof (represents_values_positive c _ HR (flow_spec_positive t h)) as Hpos.
  destruct HR as [Hp _].
  split; [exact Hb|]. split; [exact Hpos|]. split; [|exact Hp].
  destruct (parallel_projections c Hp) as [_ [_ ->]].
  apply Forall_map. exact Hpos.
Qed.

(** C5. Every source index and every target index of the chart is a valid
    position of the node list: smaller than the number of labels. *)
Theorem edge_indices_valid (t : Trans) (h : Holders) :
  exists c, build t h = Some c /\
    Forall (fun i => (i < List.length (labels c))%nat) (source_indices c) /\
    Forall (fun i => (i < List.length (labels c))%nat) (target_indices c) /\
    Forall (fun e => (fst (fst e) < List.length (labels c))%nat /\
                     (snd (fst e) < List.length (labels c))%nat) (edges c) /\
    parallel c.
Proof.
  destruct (build_spec t h) as [c [Hb [_ HR]]]. exists c.
  pose proof (represents_indices_valid c _ HR) as Hidx.
  destruct HR as [Hp _].
  destruct (parallel_projections c Hp) as [Hs [Ht _]].
  split; [exact Hb|]. repeat split; try exact Hidx; try apply Hp.
  - rewrite Hs. apply Forall_map. eapply Forall_impl; [|exact Hidx].
    now intros e [H _].
  - rewrite Ht. apply Forall_map. eapply Forall_impl; [|exact Hidx].
    now intros e [_ H].
Qed.

Lemma TRANS_labels_distinct (lang : Lang) :
  NoDup [ tr_total_revenue (TRANS lang); tr_cogs_label (TRANS lang);
          tr_gross_profit (TRANS lang); tr_net_income (TRANS lang) ].
Proof.
  destruct lang; cbn;
    repeat (constructor; [cbn; intuition discriminate|]); constructor.
Qed.

Lemma positive_items_In (d : dict) (name : string) (v : Z) :
  In (name, v) (positive_items d) <-> In (name, v) d /\ v > 0.
Proof.
  unfold positive_items. rewrite filter_In. cbn.
  destruct (Z.gtb_spec v 0); intuition (try lia; try discriminate).
Qed.

Lemma In_lift_flow (f : string * string * Z) F :
  In f F -> In (lift_flow f) (map lift_flow F).
Proof. apply in_map. Qed.

Lemma In_map_lift_flow (a b : string) (v : Z) F :
  In (Some a, Some b, v) (map lift_flow F) -> In (a, b, v) F.
Proof.
  intros H. apply in_map_iff in H. destruct H as [[[a' b'] v'] [E Hin]].
  cbn in E. now injection E as -> -> ->.
Qed.

(** C2 fails on scenario B with an expense item: the gross profit is -20,
    yet the loop of lines 190-195 is not guarded by it and records the link
    Gross Profit -> R&D (20). *)
Lemma gross_loss_expense_link_counterexample :
  ~ (forall (lang : Lang) (h : Holders) (c : Chart),
       gross_profit h <= 0 -> build (TRANS lang) h = Some c ->
       forall name v,
         ~ In (Some (tr_gross_profit (TRANS lang)), Some name, v)
              (edge_labels c)).
Proof.
  intros H.
  pose (h := {| revenue_items := [("A", 30)]; cogs_value := 50;
                expense_items := [("R&D", 20)] |}).
  destruct (build (TRANS English) h) as [c|] eqn:Hb; [|discriminate Hb].
  apply (H English h c ltac:(vm_compute; discriminate) Hb "R&D" 20).
  vm_compute in Hb. injection Hb as <-. vm_compute. auto.
Qed.

(** C2, amended.  When [gross_profit <= 0] no link
    Total Revenue -> Gross Profit is recorded; the links
    Gross Profit -> expense item are still recorded for every expense item
    with a positive value; the closing link Gross Profit -> Net Income is
    recorded only if [net_income > 0], which cannot happen when the total
    of the expenses is not negative. *)
Theorem gross_loss_links (lang : Lang) (h : Holders) :
  gross_profit h <= 0 ->
  let t := TRANS lang in
  let revenue_flows :=
    map (fun '(name, val) => (name, tr_total_revenue t, val))
        (positive_items (revenue_items h)) in
  let cogs_flow :=
    if cogs_value h >? 0
    then [(tr_total_revenue t, tr_cogs_label t, cogs_value h)] else [] in
  let expense_flows :=
    map (fun '(name, val) => (tr_gross_profit t, name, val))
        (positive_items (expense_items h)) in
  let net_income_flow :=
    if net_income h >? 0
    then [(tr_gross_profit t, tr_net_income t, net_income h)] else [] in
  exists c, build t h = Some c /\
    edge_labels c
      = map lift_flow
          (revenue_flows ++ cogs_flow ++ expense_flows ++ net_income_flow) /\
    (forall v, ~ In (Some (tr_total_revenue t), Some (tr_gross_profit t), v)
                    (edge_labels c)) /\
    (forall name v, In (name, v) (expense_items h) -> v > 0 ->
       In (Some (tr_gross_profit t), Some name, v) (edge_labels c)) /\
    (0 <= total_expenses h ->
       net_income h <= 0 /\
       edge_labels c = map lift_flow (revenue_flows ++ cogs_flow ++ expense_flows)).
Proof.
  intros Hgp t revenue_flows cogs_flow expense_flows net_income_flow.
  destruct (build_spec t h) as [c [Hb [_ HR]]]. exists c.
  apply represents_edge_labels in HR. split; [exact Hb|].
  assert (Hgpb : (gross_profit h >? 0) = false)
    by (destruct (Z.gtb_spec (gross_profit h) 0); [lia | reflexivity]).
  assert (HE : edge_labels c
               = map lift_flow
                   (revenue_flows ++ cogs_flow ++ expense_flows ++ net_income_flow)).
  { rewrite HR. unfold flow_spec. rewrite Hgpb. reflexivity. }
  pose proof (TRANS_labels_distinct lang) as Hnd. fold t in Hnd.
  assert (Htr : tr_total_revenue t <> tr_gross_profit t).
  { inversion Hnd as [|? ? H1 _]; subst. cbn in H1. intuition congruence. }
  assert (Hcg : tr_cogs_label t <> tr_gross_profit t).
  { inversion Hnd as [|? ? _ H1]; subst. inversion H1 as [|? ? H2 _]; subst.
    cbn in H2. intuition congruence. }
  split; [exact HE|]. split; [|split].
  - intros v Hin. rewrite HE in Hin. apply In_map_lift_flow in Hin.
    unfold revenue_flows, cogs_flow, expense_flows, net_income_flow in Hin.
    rewrite !in_app_iff in Hin. destruct Hin as [Hin | [Hin | [Hin | Hin]]].
    + apply in_map_iff in Hin. destruct Hin as [[n x] [E _]]. congruence.
    + destruct (cogs_value h >? 0); [|contradiction].
      destruct Hin as [E | []]. congruence.
    + apply in_map_iff in Hin. destruct Hin as [[n x] [E _]]. congruence.
    + destruct (net_income h >? 0); [|contradiction].
      destruct Hin as [E | []]. congruence.
  - intros name v Hin Hv. rewrite HE.
    apply (In_lift_flow (tr_gross_profit t, name, v)).
    apply in_or_app. right. apply in_or_app. right. apply in_or_app. left.
    unfold expense_flows. apply in_map_iff. exists (name, v).
    split; [reflexivity|]. now apply positive_items_In.
  - intros Hte. assert (Hni : net_income h <= 0) by (unfold net_income; lia).
    split; [exact Hni|]. rewrite HE. unfold net_income_flow.
    destruct (Z.gtb_spec (net_income h) 0); [lia|].
    now rewrite !app_nil_r.
Qed.

Lemma gross_loss_links_witness :
  let h := {| revenue_items := [("A", 30)]; cogs_value := 50;
              expense_items := [("R&D", 20)] |} in
  gross_profit h <= 0 /\
  exists c, build (TRANS English) h = Some c /\
    In (Some "Gross Profit", Some "R&D", 20) (edge_labels c).
Proof.
  cbv zeta.
  assert (Hgp : gross_profit {| revenue_items := [("A", 30)]; cogs_value := 50;
                                expense_items := [("R&D", 20)] |} <= 0)
    by (vm_compute; discriminate).
  split; [exact Hgp|].
  destruct (gross_loss_links English _ Hgp) as [c [Hb [_ [_ [Hexp _]]]]].
  exists c. split; [exact Hb|].
  apply (Hexp "R&D" 20); [left; reflexivity | reflexivity].
Defined.

(** ** The claims about the node list *)

Lemma zero_items (d : dict) :
  Forall (fun p => snd p = 0) d ->
  sum (dict_values d) = 0 /\ positive_items d = [].
Proof.
  induction d as [|[n v] d IH]; intros H.
  - split; reflexivity.
  - inversion H as [|? ? Hv Hd]; subst. cbn in Hv. subst v.
    destruct (IH Hd) as [Hs Hp]. split.
    + cbn [dict_values map snd]. rewrite sum_cons. exact Hs.
    + cbn. exact Hp.
Qed.

Lemma dict_set_zero (k : string) (d : dict) :
  Forall (fun p => snd p = 0) d -> Forall (fun p => snd p = 0) (dict_set k 0 d).
Proof.
  induction 1 as [|[k' v'] d Hv Hd IH]; cbn [dict_set].
  - repeat constructor.
  - cbn in Hv. destruct (String.eqb k' k); constructor; cbn;
      first [reflexivity | assumption].
Qed.

(** Rows of unknown type and rows with value zero leave only zeros in the
    two dictionaries. *)
Lemma load_rows_with_zero (str_lower : string -> string)
      (rows : list Row) (h : Holders) :
  Forall (fun r => classify_with str_lower (row_type r) = Unknown \/
                   row_val r = 0) rows ->
  Forall (fun p => snd p = 0) (revenue_items h) ->
  Forall (fun p => snd p = 0) (expense_items h) ->
  Forall (fun p => snd p = 0) (revenue_items (load_rows_with str_lower rows h)) /\
  Forall (fun p => snd p = 0) (expense_items (load_rows_with str_lower rows h)).
Proof.
  revert h. induction rows as [|r rows IH]; intros h Hrows Hr He; [auto|].
  inversion Hrows as [|? ? Hrow Hrest]; subst.
  unfold load_rows_with. cbn [fold_left].
  fold (load_rows_with str_lower rows (process_row_with str_lower h r)).
  apply IH; [exact Hrest | |]; rewrite process_row_with_classify;
    destruct Hrow as [-> | Hv]; try assumption;
    destruct (classify_with str_lower (row_type r));
    cbn [revenue_items expense_items]; try assumption;
    rewrite Hv; now apply dict_set_zero.
Qed.

Lemma represents_referenced (c : Chart) F (a b : string) (v : Z) :
  represents c F -> In (a, b, v) F -> referenced c a /\ referenced c b.
Proof.
  intros [_ [He Hin]] Hf. rewrite Forall_forall in Hin.
  destruct (Hin _ Hf) as [Ha Hb]. cbn in Ha, Hb.
  assert (Hedge : In (index_of a (labels c), index_of b (labels c), v) (edges c)).
  { rewrite He. apply (in_map (resolve (labels c)) _ _ Hf). }
  split; exists (index_of a (labels c)), (index_of b (labels c)), v;
    (split; [exact Hedge|]).
  - left. now apply nth_error_index_of.
  - right. now apply nth_error_index_of.
Qed.

Lemma In_dict_keys (d : dict) (name : string) :
  In name (dict_keys d) <-> exists v, In (name, v) d.
Proof.
  unfold dict_keys. rewrite in_map_iff. split.
  - intros [[n v] [E Hin]]. cbn in E. subst n. now exists v.
  - intros [v Hin]. now exists (name, v).
Qed.

(** Every label of the node list is one of the three labels requested
    unconditionally (lines 164, 174, 175) or an end point of a link. *)
Lemma labels_aggregate_or_referenced (t : Trans) (h : Holders) (c : Chart) :
  labels c = fold_left add_label (requested_labels t h) [] ->
  represents c (flow_spec t h) ->
  forall name, In name (labels c) ->
    name = tr_total_revenue t \/ name = tr_cogs_label t \/
    name = tr_gross_profit t \/ referenced c name.
Proof.
  intros Hl HR name Hin. rewrite Hl in Hin.
  apply fold_add_label_In in Hin. destruct Hin as [[] | Hin].
  unfold requested_labels in Hin. rewrite !in_app_iff in Hin.
  destruct Hin as [[E | []] | [Hin | [[E | [E | []]] | [Hin | Hin]]]]; auto.
  - apply In_dict_keys in Hin. destruct Hin as [v Hv].
    do 3 right. apply (represents_referenced c _ name (tr_total_revenue t) v HR).
    unfold flow_spec. apply in_or_app. left.
    apply in_map_iff. now exists (name, v).
  - apply In_dict_keys in Hin. destruct Hin as [v Hv].
    do 3 right. apply (represents_referenced c _ (tr_gross_profit t) name v HR).
    unfold flow_spec. do 3 (apply in_or_app; right). apply in_or_app. left.
    apply in_map_iff. now exists (name, v).
  - destruct (net_income h >? 0) eqn:E; [|contradiction].
    destruct Hin as [<- | []]. do 3 right.
    apply (represents_referenced c _ (tr_gross_profit t) (tr_net_income t)
             (net_income h) HR).
    unfold flow_spec. do 4 (apply in_or_app; right). rewrite E. now left.
Qed.

(** C3 fails on an input whose items are all zero (the manual tab with
    every value at 0): the three aggregate labels are requested at lines
    164, 174 and 175 whether or not a link uses them, so the node list has
    three entries, none of them the end point of a link. *)
Lemma aggregate_nodes_counterexample :
  ~ (forall (lang : Lang) (h : Holders),
       Forall (fun p => snd p = 0) (revenue_items h) ->
       cogs_value h = 0 ->
       Forall (fun p => snd p = 0) (expense_items h) ->
       exists c, build (TRANS lang) h = Some c /\ labels c = [] /\ edges c = [])
  /\
  ~ (forall (lang : Lang) (h : Holders) (c : Chart),
       build (TRANS lang) h = Some c ->
       forall name, In name (labels c) -> referenced c name).
Proof.
  pose (h := {| revenue_items := [("Product A", 0); ("Services", 0)];
                cogs_value := 0;
                expense_items := [("R&D", 0)] |}).
  split.
  - intros H.
    destruct (H English h) as [c [Hb [Hl _]]];
      [repeat constructor | reflexivity | repeat constructor |].
    vm_compute in Hb. injection Hb as <-. discriminate Hl.
  - intros H.
    destruct (build (TRANS English) h) as [c|] eqn:Hb; [|discriminate Hb].
    destruct (H English h c Hb "Total Revenue") as [s [t [v [Hin _]]]].
    + vm_compute in Hb. injection Hb as <-. left. reflexivity.
    + vm_compute in Hb. injection Hb as <-. exact Hin.
Qed.

Lemma build_all_zero (lang : Lang) (h : Holders) :
  Forall (fun p => snd p = 0) (revenue_items h) ->
  cogs_value h = 0 ->
  Forall (fun p => snd p = 0) (expense_items h) ->
  build (TRANS lang) h =
    Some {| labels := [ tr_total_revenue (TRANS lang);
                        tr_cogs_label (TRANS lang);
                        tr_gross_profit (TRANS lang) ];
            source_indices := []; target_indices := []; values := [] |}.
Proof.
  intros Hrev Hcogs Hexp.
  destruct (build_spec (TRANS lang) h) as [c [Hb [Hl HR]]].
  destruct (zero_items _ Hrev) as [Sr Pr].
  destruct (zero_items _ Hexp) as [Se Pe].
  assert (Hgp : gross_profit h = 0)
    by (unfold gross_profit, total_revenue; lia).
  assert (Hni : net_income h = 0)
    by (unfold net_income, total_expenses; lia).
  assert (HF : flow_spec (TRANS lang) h = []).
  { unfold flow_spec. now rewrite Pr, Pe, Hcogs, Hgp, Hni. }
  assert (HL : labels c = [ tr_total_revenue (TRANS lang);
                           tr_cogs_label (TRANS lang);
                           tr_gross_profit (TRANS lang) ]).
  { rewrite Hl. unfold requested_labels. rewrite Pr, Pe, Hni.
    destruct lang; reflexivity. }
  rewrite HF in HR. destruct HR as [Hp [He _]]. cbn in He.
  destruct (parallel_projections c Hp) as [Es [Et Ev]].
  rewrite He in Es, Et, Ev. cbn in Es, Et, Ev.
  rewrite Hb. destruct c as [ls src tgt vals]. cbn in HL, Es, Et, Ev.
  now rewrite HL, Es, Et, Ev.
Qed.

(** C3, amended.  The node list has no repeated label, and each of its
    labels is either one of the three aggregate labels that the script
    requests unconditionally (Total Revenue, the cost-of-revenue label,
    Gross Profit) or the end point of at least one link; item labels and
    the Net Income label are thus present only when a link uses them.  An
    input whose items all have value zero, with a zero cost of revenue,
    yields exactly the three aggregate nodes and no link.  For a run of
    the script this is the case when every row that the upload loop reads
    is of unknown type or has value zero and the values of the manual tab,
    its cost of revenue included, are all zero. *)
Theorem nodes_aggregate_or_referenced :
  (forall (lang : Lang) (h : Holders),
     exists c, build (TRANS lang) h = Some c /\
       NoDup (labels c) /\
       forall name, In name (labels c) ->
         name = tr_total_revenue (TRANS lang) \/
         name = tr_cogs_label (TRANS lang) \/
         name = tr_gross_profit (TRANS lang) \/
         referenced c name) /\
  (forall (lang : Lang) (h : Holders),
     Forall (fun p => snd p = 0) (revenue_items h) ->
     cogs_value h = 0 ->
     Forall (fun p => snd p = 0) (expense_items h) ->
     build (TRANS lang) h =
       Some {| labels := [ tr_total_revenue (TRANS lang);
                           tr_cogs_label (TRANS lang);
                           tr_gross_profit (TRANS lang) ];
               source_indices := []; target_indices := []; values := [] |}) /\
  (forall (str_lower : string -> string) (lang : Lang)
          (upload : option (list RawRow)) (m : Manual),
     Forall (fun r => classify_with str_lower (row_type r) = Unknown \/
                      row_val r = 0) (upload_rows upload) ->
     r1_val m = 0 -> r2_val m = 0 -> cogs_input m = 0 -> e1_val m = 0 ->
     script_with str_lower lang upload m =
       Some {| labels := [ tr_total_revenue (TRANS lang);
                           tr_cogs_label (TRANS lang);
                           tr_gross_profit (TRANS lang) ];
               source_indices := []; target_indices := []; values := [] |}).
Proof.
  split; [|split].
  - intros lang h. destruct (build_spec (TRANS lang) h) as [c [Hb [Hl HR]]].
    exists c. split; [exact Hb|]. split.
    + rewrite Hl. apply fold_add_label_NoDup. constructor.
    + now apply (labels_aggregate_or_referenced (TRANS lang) h c).
  - apply build_all_zero.
  - intros str_lower lang upload m Hrows H1 H2 Hc He.
    unfold script_with. rewrite script_holders_with_run.
    destruct (load_rows_with_zero str_lower (upload_rows upload) holders0 Hrows)
      as [Zr Ze]; [constructor | constructor |].
    apply build_all_zero; unfold manual_input;
      cbn [revenue_items cogs_value expense_items].
    + rewrite H1, H2. now do 2 apply dict_set_zero.
    + exact Hc.
    + rewrite He. now apply dict_set_zero.
Qed.

Lemma nodes_aggregate_or_referenced_witness :
  script_with lower Turkce
    (Some [ mkRawRow "Not" (Some 12) "aciklama";
            mkRawRow "Urun" (Some 0) "Gelir";
            mkRawRow "Toplam" None "Gelir" ])
    {| r1_name := "Product A"; r1_val := 0;
       r2_name := "Services"; r2_val := 0;
       cogs_input := 0; e1_name := "R&D"; e1_val := 0 |}
  = Some {| labels := [ "Toplam Gelir"; "Satışların Maliyeti (COGS)";
                        "Brüt Kâr" ];
            source_indices := []; target_indices := []; values := [] |}.
Proof.
  apply (proj2 (proj2 nodes_aggregate_or_referenced) lower Turkce).
  - cbn. constructor; [left; reflexivity|].
    constructor; [right; reflexivity|]. constructor.
  - reflexivity.
  - reflexivity.
  - reflexivity.
  - reflexivity.
Defined.

(** ** The label registry *)

Lemma with_labels_same (c : Chart) : with_labels (labels c) c = c.
Proof. now destruct c. Qed.

Lemma add_label_present (ls : list string) (name : string) :
  In name ls -> add_label ls name = ls.
Proof.
  intros H. unfold add_label. apply list_mem_In in H. now rewrite H.
Qed.

(** Successive calls never fail; each answer is the position of its label
    in the final label list. *)
Lemma get_idx_all_run (names : list string) (c : Chart) :
  get_idx_all names c =
  Some (map (fun n => index_of n (fold_left add_label names (labels c))) names,
        with_labels (fold_left add_label names (labels c)) c).
Proof.
  revert c. induction names as [|n names IH]; intros c.
  - cbn. now rewrite with_labels_same.
  - cbn [get_idx_all]. unfold bind at 1. rewrite get_idx_run.
    unfold bind at 1. rewrite IH. cbn [ret with_labels labels map fold_left].
    destruct (fold_add_label_extends names (add_label (labels c) n)) as [more E].
    rewrite E. unfold ret.
    rewrite (index_of_app n (add_label (labels c) n) more)
      by (apply add_label_In; now right).
    reflexivity.
Qed.

Lemma fold_add_label_fresh (names ls : list string) :
  NoDup (ls ++ names) -> fold_left add_label names ls = ls ++ names.
Proof.
  revert ls. induction names as [|n names IH]; intros ls H; cbn.
  - now rewrite app_nil_r.
  - assert (Hn : ~ In n ls).
    { apply NoDup_remove_2 in H. intros Hin. apply H. apply in_or_app. now left. }
    unfold add_label. apply list_mem_not_In in Hn. rewrite Hn.
    rewrite IH; rewrite <- app_assoc; [reflexivity | exact H].
Qed.

Lemma index_of_fresh_names (names ls : list string) :
  NoDup (ls ++ names) ->
  map (fun n => index_of n (ls ++ names)) names
  = seq (List.length ls) (List.length names).
Proof.
  revert ls. induction names as [|n names IH]; intros ls H; [reflexivity|].
  assert (Hn : ~ In n ls).
  { apply NoDup_remove_2 in H. intros Hin. apply H. apply in_or_app. now left. }
  cbn [map List.length seq]. f_equal.
  - change (ls ++ n :: names) with (ls ++ [n] ++ names). rewrite app_assoc.
    rewrite index_of_app by (apply in_or_app; right; now left).
    now apply index_of_fresh.
  - specialize (IH (ls ++ [n])). rewrite <- app_assoc in IH. cbn in IH.
    rewrite IH by exact H. rewrite length_app. cbn. f_equal. lia.
Qed.

(** C9. The registry is the list [labels] with [get_idx].  (1) A second
    call with a label answers the same index as the first one, also after
    any calls in between, and leaves the list unchanged.  (2) From the
    empty list, calls with N pairwise distinct labels answer 0, 1, ...,
    N-1 in that order and the list is then exactly those labels.  (3) One
    list serves the whole construction: a name that is both a revenue item
    and an expense item with positive values is a single node, whose index
    is the source of its revenue link and the target of its expense
    link. *)
Theorem label_registry_shared :
  (forall (name : string) (others : list string) (c : Chart),
     exists i c1 more c2,
       get_idx name c = Some (i, c1) /\
       get_idx_all others c1 = Some (more, c2) /\
       get_idx name c2 = Some (i, c2)) /\
  (forall names : list string,
     NoDup names ->
     get_idx_all names chart0
     = Some (seq 0 (List.length names), with_labels names chart0)) /\
  (forall (t : Trans) (h : Holders) (name : string) (v v' : Z),
     In (name, v) (revenue_items h) -> v > 0 ->
     In (name, v') (expense_items h) -> v' > 0 ->
     exists c i,
       build t h = Some c /\
       NoDup (labels c) /\
       nth_error (labels c) i = Some name /\
       In (i, index_of (tr_total_revenue t) (labels c), v) (edges c) /\
       In (index_of (tr_gross_profit t) (labels c), i, v') (edges c)).
Proof.
  split; [|split].
  - intros name others c.
    set (L1 := add_label (labels c) name).
    set (L2 := fold_left add_label others L1).
    exists (index_of name L1), (with_labels L1 c),
      (map (fun n => index_of n L2) others), (with_labels L2 c).
    assert (H1 : In name L1) by (apply add_label_In; now right).
    assert (H2 : In name L2) by (apply fold_add_label_In; now left).
    split; [apply get_idx_run|].
    split; [rewrite get_idx_all_run; reflexivity|].
    rewrite get_idx_run. cbn [with_labels labels].
    rewrite (add_label_present L2 name H2).
    unfold L2 at 1. destruct (fold_add_label_extends others L1) as [m ->].
    now rewrite index_of_app.
  - intros names Hnd. rewrite get_idx_all_run. cbn [chart0 labels].
    pose proof (fold_add_label_fresh names [] Hnd) as EL.
    pose proof (index_of_fresh_names names [] Hnd) as EI.
    cbn [app List.length] in EL, EI. now rewrite EL, EI.
  - intros t h name v v' Hr Hv He Hv'.
    destruct (build_spec t h) as [c [Hb [Hl HR]]].
    exists c, (index_of name (labels c)).
    assert (Hin : In name (labels c)).
    { rewrite Hl. apply fold_add_label_In. right. unfold requested_labels.
      apply in_or_app. right. apply in_or_app. left.
      apply In_dict_keys. exists v. now apply positive_items_In. }
    destruct HR as [_ [HE _]].
    split; [exact Hb|]. split; [|split; [|split]].
    + rewrite Hl. apply fold_add_label_NoDup. constructor.
    + now apply nth_error_index_of.
    + rewrite HE.
      apply (in_map (resolve (labels c)) _ (name, tr_total_revenue t, v)).
      unfold flow_spec. apply in_or_app. left. apply in_map_iff.
      exists (name, v). split; [reflexivity | now apply positive_items_In].
    + rewrite HE.
      apply (in_map (resolve (labels c)) _ (tr_gross_profit t, name, v')).
      unfold flow_spec. do 3 (apply in_or_app; right). apply in_or_app. left.
      apply in_map_iff.
      exists (name, v'). split; [reflexivity | now apply positive_items_In].
Qed.

Lemma label_registry_shared_witness :
  get_idx_all ["Total Revenue"; "iPhone"; "Services"] chart0
  = Some ([0; 1; 2]%nat, with_labels ["Total Revenue"; "iPhone"; "Services"] chart0)
  /\
  exists c i,
    build (TRANS English)
          {| revenue_items := [("Tax", 5); ("A", 100)]; cogs_value := 60;
             expense_items := [("R&D", 20); ("Tax", 7)] |} = Some c /\
    NoDup (labels c) /\
    nth_error (labels c) i = Some "Tax" /\
    In (i, index_of "Total Revenue" (labels c), 5) (edges c) /\
    In (index_of "Gross Profit" (labels c), i, 7) (edges c).
Proof.
  split.
  - apply (proj1 (proj2 label_registry_shared)).
    repeat (constructor; [cbn; intuition discriminate|]). constructor.
  - apply (proj2 (proj2 label_registry_shared) (TRANS English)
             {| revenue_items := [("Tax", 5); ("A", 100)]; cogs_value := 60;
                expense_items := [("R&D", 20); ("Tax", 7)] |} "Tax" 5 7).
    + left. reflexivity.
    + reflexivity.
    + right. left. reflexivity.
    + reflexivity.
Defined.

(** C10 fails when an item is itself named like the Net Income node: with
    the revenue item "Net Income" (10) and a cost of revenue of 20 the net
    income is -10, yet the node list holds the label "Net Income". *)
Lemma net_income_label_counterexample :
  ~ (forall (lang : Lang) (h : Holders) (c : Chart),
       build (TRANS lang) h = Some c ->
       (In (tr_net_income (TRANS lang)) (labels c) <-> net_income h > 0)).
Proof.
  intros H.
  pose (h := {| revenue_items := [("Net Income", 10)]; cogs_value := 20;
                expense_items := [] |}).
  destruct (build (TRANS English) h) as [c|] eqn:Hb; [|discriminate Hb].
  destruct (H English h c Hb) as [Hpos _].
  assert (Hin : In (tr_net_income (TRANS English)) (labels c)).
  { vm_compute in Hb. injection Hb as <-. right. left. reflexivity. }
  specialize (Hpos Hin). vm_compute in Hpos. discriminate Hpos.
Qed.

(** C10, amended.  The Net Income label is in the node list exactly when
    [net_income > 0] or a revenue or expense item with a positive value is
    itself named with that label; the three other aggregate labels are in
    the node list in every case. *)
Theorem net_income_label_presence (lang : Lang) (h : Holders) :
  exists c, build (TRANS lang) h = Some c /\
    (In (tr_net_income (TRANS lang)) (labels c) <->
       net_income h > 0 \/
       (exists v, In (tr_net_income (TRANS lang), v) (revenue_items h) /\ v > 0) \/
       (exists v, In (tr_net_income (TRANS lang), v) (expense_items h) /\ v > 0)) /\
    In (tr_total_revenue (TRANS lang)) (labels c) /\
    In (tr_cogs_label (TRANS lang)) (labels c) /\
    In (tr_gross_profit (TRANS lang)) (labels c).
Proof.
  destruct (build_spec (TRANS lang) h) as [c [Hb [Hl _]]]. exists c.
  split; [exact Hb|].
  assert (Hmem : forall x, In x (labels c) <-> In x (requested_labels (TRANS lang) h)).
  { intros x. rewrite Hl, fold_add_label_In. cbn. tauto. }
  rewrite !Hmem. unfold requested_labels. rewrite !in_app_iff.
  split; [|cbn; tauto].
  rewrite !In_dict_keys.
  assert (Hpi : forall d name,
            (exists v, In (name, v) (positive_items d))
            <-> (exists v, In (name, v) d /\ v > 0)).
  { intros d name. split; intros [v Hv]; exists v; now apply positive_items_In. }
  rewrite !Hpi.
  assert (Hni : In (tr_net_income (TRANS lang))
                   (if net_income h >? 0 then [tr_net_income (TRANS lang)] else [])
                <-> net_income h > 0).
  { destruct (Z.gtb_spec (net_income h) 0); cbn; intuition lia. }
  rewrite Hni.
  assert (H1 : ~ In (tr_net_income (TRANS lang)) [tr_total_revenue (TRANS lang)])
    by (destruct lang; cbn; intuition discriminate).
  assert (H2 : ~ In (tr_net_income (TRANS lang))
                    [tr_cogs_label (TRANS lang); tr_gross_profit (TRANS lang)])
    by (destruct lang; cbn; intuition discriminate).
  tauto.
Qed.

(* ===================================================================== *)
(** * Further properties of the script                                     *)
(* ===================================================================== *)

(** ** Dictionaries as the upload loop fills them *)

Lemma dict_set_In (k : string) (v : Z) (d : dict) (n : string) (x : Z) :
  NoDup (dict_keys d) ->
  (In (n, x) (dict_set k v d) <->
   (n = k /\ x = v) \/ (n <> k /\ In (n, x) d)).
Proof.
  induction d as [|[k' v'] d IH]; intros Hnd.
  - cbn. intuition congruence.
  - inversion Hnd as [|? ? Hnotin Hnd']; subst. cbn [dict_set].
    assert (Hkey : forall y, In (k', y) d -> False).
    { intros y Hy. apply Hnotin. apply In_dict_keys. now exists y. }
    destruct (String.eqb_spec k' k) as [-> | Hne].
    + cbn [In]. split.
      * intros [E | Hin]; [injection E as <- <-; auto|].
        right. split; [|auto]. intros ->. eauto.
      * intros [[-> ->] | [Hn [E | Hin]]]; auto.
        injection E as <- <-. contradiction.
    + cbn [In]. rewrite (IH Hnd'). split.
      * intros [E | [[-> ->] | [Hn Hin]]]; auto.
        injection E as <- <-. right. split; [congruence | auto].
      * intros [[-> ->] | [Hn [E | Hin]]]; auto.
Qed.

Lemma dict_set_all_keys (l : list (string * Z)) (d : dict) :
  dict_keys (dict_set_all l d) = fold_left add_label (map fst l) (dict_keys d).
Proof.
  revert d. induction l as [|[n v] l IH]; intros d; [reflexivity|].
  cbn [dict_set_all fold_left map fst snd].
  fold (dict_set_all l (dict_set n v d)). now rewrite IH, dict_set_keys.
Qed.

Lemma dict_set_all_NoDup (l : list (string * Z)) (d : dict) :
  NoDup (dict_keys d) -> NoDup (dict_keys (dict_set_all l d)).
Proof.
  intros H. rewrite dict_set_all_keys. now apply fold_add_label_NoDup.
Qed.

Lemma dict_set_all_In (l : list (string * Z)) (d : dict) (n : string) (x : Z) :
  NoDup (dict_keys d) ->
  (In (n, x) (dict_set_all l d) <->
   In (n, x) (last_per_name l) \/ (In (n, x) d /\ ~ In n (map fst l))).
Proof.
  revert d. induction l as [|[k v] l IH]; intros d Hnd.
  - cbn. tauto.
  - cbn [dict_set_all fold_left fst snd]. fold (dict_set_all l (dict_set k v d)).
    rewrite (IH _ (dict_set_NoDup k v d Hnd)), (dict_set_In k v d n x Hnd).
    cbn [last_per_name map fst In].
    destruct (list_mem k (map fst l)) eqn:Hmem.
    + apply list_mem_In in Hmem. split.
      * intros [H | [[[-> ->] | [Hn Hin]] Hnot]]; auto.
        -- contradiction.
        -- right. split; [exact Hin|]. intros [E | H]; [congruence | auto].
      * intros [H | [Hin Hnot]]; auto.
        right. split; [|tauto]. right. split; [|exact Hin].
        intros ->. tauto.
    + apply list_mem_not_In in Hmem. cbn [In]. split.
      * intros [H | [[[-> ->] | [Hn Hin]] Hnot]]; auto.
        right. split; [exact Hin|]. intros [E | H]; [congruence | auto].
      * intros [[E | H] | [Hin Hnot]]; auto.
        -- injection E as <- <-. right. split; [auto | exact Hmem].
        -- right. split; [|tauto]. right. split; [|exact Hin].
           intros ->. tauto.
Qed.

(** ** The upload loop *)

(** X1. After an upload into the empty holders, the revenue dictionary has
    one entry per distinct name of the Revenue rows that the loop has read
    (the rows in front of the first value that does not convert; all rows
    when every value converts), in the order in which the names first
    appear, each with the value of the last such row of that name; the
    expense dictionary is built from the Expense rows read in the same
    way.  This holds for every lower-casing function. *)
Theorem upload_items (str_lower : string -> string) (rows : list RawRow) :
  let h := fst (load_raw_with str_lower rows holders0) in
  let read := converted_prefix rows in
  dict_keys (revenue_items h)
    = fold_left add_label (map fst (entries_of_with str_lower Revenue read)) [] /\
  NoDup (dict_keys (revenue_items h)) /\
  (forall n v, In (n, v) (revenue_items h)
               <-> In (n, v) (last_per_name (entries_of_with str_lower Revenue read))) /\
  dict_keys (expense_items h)
    = fold_left add_label (map fst (entries_of_with str_lower Expense read)) [] /\
  NoDup (dict_keys (expense_items h)) /\
  (forall n v, In (n, v) (expense_items h)
               <-> In (n, v) (last_per_name (entries_of_with str_lower Expense read))).
Proof.
  intros h read. unfold h, read.
  rewrite load_raw_with_run, load_rows_with_by_category.
  cbn [fst revenue_items expense_items holders0].
  assert (Hnil : NoDup (dict_keys [])) by constructor.
  repeat split; try apply dict_set_all_keys; try now apply dict_set_all_NoDup.
  - intros H. apply (dict_set_all_In _ [] n v Hnil) in H.
    destruct H as [H | [[] _]]. exact H.
  - intros H. apply (dict_set_all_In _ [] n v Hnil). now left.
  - intros H. apply (dict_set_all_In _ [] n v Hnil) in H.
    destruct H as [H | [[] _]]. exact H.
  - intros H. apply (dict_set_all_In _ [] n v Hnil). now left.
Qed.

(** X2. A row whose type matches no keyword and whose value converts is
    skipped wherever it stands: removing all such rows from the table
    leaves the holders after the upload, and whether the success message
    appears, unchanged.  (A row of unknown type whose value does not
    convert is not one of them: it ends the upload.) *)
Theorem unknown_rows_skipped (str_lower : string -> string)
        (rows : list RawRow) (h : Holders) :
  load_raw_with str_lower
    (filter (fun r => negb (converts r && is_unknown_raw str_lower r)) rows) h
  = load_raw_with str_lower rows h.
Proof.
  revert h. induction rows as [|r rows IH]; intros h; [reflexivity|].
  cbn [filter]. unfold converts at 1, is_unknown_raw at 1.
  destruct (raw_val r) as [v|] eqn:Ev.
  - cbn [andb].
    destruct (Category_eqb (classify_with str_lower (raw_type r)) Unknown) eqn:Eu;
      cbn [negb load_raw_with]; rewrite Ev; [|apply IH].
    rewrite process_row_with_classify. cbn [row_type].
    destruct (classify_with str_lower (raw_type r)); try discriminate Eu.
    apply IH.
  - cbn [andb negb load_raw_with]. now rewrite Ev.
Qed.

(** X3. The three categories do not interact: two tables in which the
    loop reads the same Revenue rows, the same CostOfRevenue rows and the
    same Expense rows, each in the same relative order, give the same
    holders, however the rows of different categories are interleaved.
    The rows read are those in front of the first value that does not
    convert. *)
Theorem category_interleaving_irrelevant (str_lower : string -> string)
        (rows rows' : list RawRow) (h : Holders) :
  entries_of_with str_lower Revenue (converted_prefix rows)
    = entries_of_with str_lower Revenue (converted_prefix rows') ->
  entries_of_with str_lower CostOfRevenue (converted_prefix rows)
    = entries_of_with str_lower CostOfRevenue (converted_prefix rows') ->
  entries_of_with str_lower Expense (converted_prefix rows)
    = entries_of_with str_lower Expense (converted_prefix rows') ->
  fst (load_raw_with str_lower rows h) = fst (load_raw_with str_lower rows' h).
Proof.
  intros Hr Hc He. rewrite !load_raw_with_run, !load_rows_with_by_category.
  cbn [fst]. now rewrite Hr, Hc, He.
Qed.

Lemma category_interleaving_irrelevant_witness :
  fst (load_raw_with lower
         [ mkRawRow "iPhone" (Some 46) "Revenue";
           mkRawRow "R&D" (Some 8) "Expense";
           mkRawRow "Cost of Sales" (Some 51) "COGS";
           mkRawRow "Services" (Some 25) "Revenue";
           mkRawRow "Total" None "Revenue" ]
         holders0)
  = fst (load_raw_with lower
           [ mkRawRow "Cost of Sales" (Some 51) "COGS";
             mkRawRow "iPhone" (Some 46) "Revenue";
             mkRawRow "Services" (Some 25) "Revenue";
             mkRawRow "R&D" (Some 8) "Expense" ]
           holders0).
Proof.
  apply category_interleaving_irrelevant; reflexivity.
Defined.

(** X4. A cell of the value column that does not convert ends the upload at
    that row: the holders are those of the loop run on the rows in front of
    it, the rows behind it are never read, and the success message appears
    exactly when every row converts. *)
Theorem upload_stops_at_bad_value (rows : list RawRow) (h : Holders) :
  load_raw rows h
  = (load_rows (converted_prefix rows) h, forallb converts rows).
Proof. apply load_raw_with_run. Qed.

(** ** The manual tab and the script as a whole *)

Lemma entries_without_cost_rows (str_lower : string -> string)
      (cat : Category) (rows : list RawRow) :
  cat <> CostOfRevenue ->
  (forall r, In r rows -> is_cost_raw str_lower r = true -> converts r = true) ->
  entries_of_with str_lower cat
    (converted_prefix (filter (fun r => negb (is_cost_raw str_lower r)) rows))
  = entries_of_with str_lower cat (converted_prefix rows).
Proof.
  intros Hcat. induction rows as [|r rows IH]; intros Hconv; [reflexivity|].
  assert (Hrest : forall r', In r' rows -> is_cost_raw str_lower r' = true ->
                             converts r' = true)
    by (intros r' Hin; apply Hconv; now right).
  specialize (IH Hrest). cbn [filter].
  destruct (is_cost_raw str_lower r) eqn:Ec; cbn [negb converted_prefix].
  - pose proof (Hconv r (or_introl eq_refl) Ec) as Hv. unfold converts in Hv.
    destruct (raw_val r) as [v|]; [|discriminate Hv].
    rewrite IH. unfold entries_of_with. cbn [filter row_type].
    unfold is_cost_raw in Ec.
    destruct (classify_with str_lower (raw_type r)); try discriminate Ec.
    destruct cat; try reflexivity. congruence.
  - destruct (raw_val r) as [v|]; [|reflexivity].
    unfold entries_of_with in *. cbn [filter row_type].
    destruct (Category_eqb (classify_with str_lower (raw_type r)) cat);
      cbn [map]; now rewrite IH.
Qed.

(** X5. The cost of revenue that reaches the totals and the chart is the
    value of the manual widget, whatever was uploaded: line 127 assigns
    [cogs_value] after the upload.  CostOfRevenue rows whose value converts
    therefore have no effect: the script gives the same holders, and the
    same chart, as on the table with the CostOfRevenue rows removed.  (A
    CostOfRevenue row whose value does not convert still ends the
    upload.) *)
Theorem uploaded_cost_rows_have_no_effect (str_lower : string -> string)
        (lang : Lang) (rows : list RawRow) (m : Manual) :
  (forall r, In r rows -> is_cost_raw str_lower r = true -> converts r = true) ->
  let kept := filter (fun r => negb (is_cost_raw str_lower r)) rows in
  (forall upload, cogs_value (script_holders_with str_lower upload m)
                  = cogs_input m) /\
  script_holders_with str_lower (Some rows) m
    = script_holders_with str_lower (Some kept) m /\
  script_with str_lower lang (Some rows) m
    = script_with str_lower lang (Some kept) m.
Proof.
  intros Hconv kept.
  assert (E : script_holders_with str_lower (Some rows) m
              = script_holders_with str_lower (Some kept) m).
  { rewrite !script_holders_with_run, !load_rows_with_by_category.
    unfold manual_input, kept, upload_rows.
    cbn [revenue_items expense_items cogs_value].
    rewrite !entries_without_cost_rows by (assumption || discriminate).
    reflexivity. }
  split; [intros upload; now rewrite script_holders_with_run|].
  split; [exact E|]. unfold script_with. now rewrite E.
Qed.

Lemma uploaded_cost_rows_have_no_effect_witness :
  script_with lower English
    (Some [ mkRawRow "iPhone" (Some 46) "Revenue";
            mkRawRow "Cost of Sales" (Some 51) "COGS";
            mkRawRow "R&D" (Some 8) "Expense" ])
    {| r1_name := "Product A"; r1_val := 100;
       r2_name := "Services"; r2_val := 50;
       cogs_input := 60; e1_name := "Tax"; e1_val := 20 |}
  = script_with lower English
      (Some [ mkRawRow "iPhone" (Some 46) "Revenue";
              mkRawRow "R&D" (Some 8) "Expense" ])
      {| r1_name := "Product A"; r1_val := 100;
         r2_name := "Services"; r2_val := 50;
         cogs_input := 60; e1_name := "Tax"; e1_val := 20 |}.
Proof.
  apply (proj2 (proj2 (uploaded_cost_rows_have_no_effect lower English
    [ mkRawRow "iPhone" (Some 46) "Revenue";
      mkRawRow "Cost of Sales" (Some 51) "COGS";
      mkRawRow "R&D" (Some 8) "Expense" ]
    {| r1_name := "Product A"; r1_val := 100;
       r2_name := "Services"; r2_val := 50;
       cogs_input := 60; e1_name := "Tax"; e1_val := 20 |}
    ltac:(intros r [<- | [<- | [<- | []]]] H; first [reflexivity | discriminate H])))).
Defined.

(** X6. The manual entries win over uploaded rows of the same name: after
    the script has filled the holders, the second revenue source and the
    expense of the manual tab are in their dictionaries with the widget
    values and no other value, and so is the first revenue source unless it
    bears the name of the second one. *)
Theorem manual_entries_override (upload : option (list RawRow)) (m : Manual) :
  let h := script_holders upload m in
  (forall x, In (r2_name m, x) (revenue_items h) <-> x = r2_val m) /\
  (r1_name m <> r2_name m ->
   forall x, In (r1_name m, x) (revenue_items h) <-> x = r1_val m) /\
  (forall x, In (e1_name m, x) (expense_items h) <-> x = e1_val m).
Proof.
  intros h. unfold h, script_holders.
  rewrite script_holders_with_run, load_rows_with_by_category.
  set (h0 := {| revenue_items :=
                  dict_set_all (entries_of_with lower Revenue (upload_rows upload))
                               (revenue_items holders0);
                cogs_value := _;
                expense_items :=
                  dict_set_all (entries_of_with lower Expense (upload_rows upload))
                               (expense_items holders0) |}).
  assert (Hnd : NoDup (dict_keys (revenue_items h0)) /\
                NoDup (dict_keys (expense_items h0))).
  { unfold h0. cbn [revenue_items expense_items holders0].
    split; apply dict_set_all_NoDup; constructor. }
  destruct Hnd as [Hr He]. unfold manual_input.
  cbn [revenue_items expense_items].
  pose proof (dict_set_NoDup (r1_name m) (r1_val m) _ Hr) as Hr1.
  split; [|split].
  - intros x. rewrite (dict_set_In _ _ _ _ _ Hr1). intuition congruence.
  - intros Hne x. rewrite (dict_set_In _ _ _ _ _ Hr1), (dict_set_In _ _ _ _ _ Hr).
    intuition congruence.
  - intros x. rewrite (dict_set_In _ _ _ _ _ He). intuition congruence.
Qed.

Lemma manual_entries_override_witness :
  let m := {| r1_name := "Product A"; r1_val := 100;
              r2_name := "Services"; r2_val := 50;
              cogs_input := 60; e1_name := "R&D"; e1_val := 20 |} in
  let upload := Some [ mkRawRow "Services" (Some 25) "Revenue";
                       mkRawRow "Product A" (Some 7) "Revenue" ] in
  r1_name m <> r2_name m /\
  In ("Product A", 100) (revenue_items (script_holders upload m)).
Proof.
  cbv zeta.
  assert (Hne : "Product A" <> "Services") by discriminate.
  split; [exact Hne|].
  apply (proj1 (proj2 (manual_entries_override
    (Some [ mkRawRow "Services" (Some 25) "Revenue";
            mkRawRow "Product A" (Some 7) "Revenue" ])
    {| r1_name := "Product A"; r1_val := 100;
       r2_name := "Services"; r2_val := 50;
       cogs_input := 60; e1_name := "R&D"; e1_val := 20 |})) Hne 100).
  reflexivity.
Defined.

(** X7. With no upload the totals come from the manual tab alone, and two
    revenue sources entered under one name collapse into a single item with
    the second value: the total revenue is then the second value, not the
    sum of the two. *)
Theorem manual_totals (m : Manual) :
  let h := script_holders None m in
  total_revenue h
    = (if String.eqb (r1_name m) (r2_name m) then r2_val m
       else r1_val m + r2_val m) /\
  gross_profit h = total_revenue h - cogs_input m /\
  total_expenses h = e1_val m /\
  net_income h = total_revenue h - cogs_input m - e1_val m.
Proof.
  intros h. unfold h, script_holders, script_holders_with, manual_input,
    net_income, gross_profit,
    total_expenses, total_revenue.
  cbn [revenue_items expense_items cogs_value holders0 dict_set].
  destruct (String.eqb (r1_name m) (r2_name m));
    cbn; unfold sum; cbn; repeat split; lia.
Qed.

(** ** [get_idx] and the node list *)

Lemma index_of_injective (ls : list string) (a b : string) :
  In a ls -> In b ls -> index_of a ls = index_of b ls -> a = b.
Proof.
  intros Ha Hb E. apply nth_error_index_of in Ha, Hb.
  rewrite E in Ha. congruence.
Qed.

Lemma index_of_first (name : string) (ls : list string) (j : nat) :
  In name ls -> (j < index_of name ls)%nat -> nth_error ls j <> Some name.
Proof.
  revert j. induction ls as [|x ls IH]; intros j Hin Hj; [contradiction|].
  rewrite index_of_cons in Hj by exact Hin.
  destruct (String.eqb_spec x name) as [-> | Hne]; [lia|].
  destruct Hin as [E | Hin]; [contradiction|].
  destruct j as [|j]; cbn; [congruence|]. apply IH; [exact Hin | lia].
Qed.

(** X8. [get_idx] never fails and answers the first position at which the
    label stands in the list it leaves behind.  The earlier labels keep
    their positions; a label that was present leaves the chart unchanged,
    a new one is appended and gets the old length as index; the three link
    lists are not touched. *)
Theorem get_idx_lookup (name : string) (c : Chart) :
  exists i c', get_idx name c = Some (i, c') /\
    nth_error (labels c') i = Some name /\
    (forall j, (j < i)%nat -> nth_error (labels c') j <> Some name) /\
    (forall j x, nth_error (labels c) j = Some x ->
                 nth_error (labels c') j = Some x) /\
    (In name (labels c) -> c' = c) /\
    (~ In name (labels c) ->
     labels c' = labels c ++ [name] /\ i = List.length (labels c)) /\
    source_indices c' = source_indices c /\
    target_indices c' = target_indices c /\
    values c' = values c.
Proof.
  exists (index_of name (add_label (labels c) name)),
    (with_labels (add_label (labels c) name) c).
  assert (Hin : In name (add_label (labels c) name))
    by (apply add_label_In; now right).
  split; [apply get_idx_run|]. cbn [with_labels labels source_indices
    target_indices values].
  split; [now apply nth_error_index_of|].
  split; [intros j Hj; now apply index_of_first|].
  split; [|split; [|split; [|auto]]].
  - intros j x Hj. destruct (add_label_extends (labels c) name) as [more ->].
    rewrite nth_error_app1; [exact Hj|]. apply nth_error_Some. congruence.
  - intros H. rewrite (add_label_present _ _ H). apply with_labels_same.
  - intros H. unfold add_label. apply list_mem_not_In in H. rewrite H.
    split; [reflexivity|]. apply index_of_fresh. now apply list_mem_not_In.
Qed.

Lemma fold_add_label_length (names ls : list string) :
  (List.length (fold_left add_label names ls)
   <= List.length ls + List.length names)%nat.
Proof.
  revert ls. induction names as [|n names IH]; intros ls; cbn; [lia|].
  specialize (IH (add_label ls n)). unfold add_label in *.
  destruct (list_mem n ls); [lia|]. rewrite length_app in IH. cbn in IH. lia.
Qed.

Lemma positive_items_length (d : dict) :
  (List.length (positive_items d) <= List.length d)%nat.
Proof. apply filter_length_le. Qed.

(** X9. Total Revenue is always node 0.  The node list has at least the
    three aggregate nodes and at most four more nodes than there are
    revenue and expense items; there are at most three more links than
    items. *)
Theorem node_list_shape (lang : Lang) (h : Holders) :
  exists c, build (TRANS lang) h = Some c /\
    nth_error (labels c) 0 = Some (tr_total_revenue (TRANS lang)) /\
    (3 <= List.length (labels c))%nat /\
    (List.length (labels c)
     <= 4 + List.length (revenue_items h) + List.length (expense_items h))%nat /\
    (List.length (edges c)
     <= 3 + List.length (revenue_items h) + List.length (expense_items h))%nat.
Proof.
  destruct (build_spec (TRANS lang) h) as [c [Hb [Hl HR]]]. exists c.
  pose proof (positive_items_length (revenue_items h)) as Lr.
  pose proof (positive_items_length (expense_items h)) as Le.
  split; [exact Hb|]. split; [|split; [|split]].
  - rewrite Hl. unfold requested_labels. cbn [app fold_left].
    destruct (fold_add_label_extends
                (dict_keys (positive_items (revenue_items h)) ++
                 [tr_cogs_label (TRANS lang); tr_gross_profit (TRANS lang)] ++
                 dict_keys (positive_items (expense_items h)) ++
                 (if net_income h >? 0 then [tr_net_income (TRANS lang)] else []))
                (add_label [] (tr_total_revenue (TRANS lang)))) as [more E].
    cbn [app] in E. rewrite E. reflexivity.
  - change 3%nat with (List.length [ tr_total_revenue (TRANS lang);
                                    tr_cogs_label (TRANS lang);
                                    tr_gross_profit (TRANS lang) ]).
    apply NoDup_incl_length.
    + destruct lang; cbn;
        repeat (constructor; [cbn; intuition discriminate|]); constructor.
    + intros x Hx. rewrite Hl. apply fold_add_label_In. right.
      unfold requested_labels. cbn in Hx. rewrite !in_app_iff. cbn.
      intuition auto.
  - rewrite Hl.
    pose proof (fold_add_label_length (requested_labels (TRANS lang) h) []) as H.
    unfold requested_labels in H. unfold dict_keys in H.
    rewrite !length_app, !length_map in H. cbn [List.length] in H.
    assert ((List.length (if net_income h >? 0
                          then [tr_net_income (TRANS lang)] else []) <= 1)%nat)
      by (destruct (net_income h >? 0); cbn; lia).
    unfold requested_labels, dict_keys. lia.
  - destruct HR as [_ [He _]]. rewrite He, length_map. unfold flow_spec.
    rewrite !length_app, !length_map.
    destruct (cogs_value h >? 0), (gross_profit h >? 0), (net_income h >? 0);
      cbn [List.length]; lia.
Qed.

Lemma sum_positive_element (l : list Z) :
  sum l > 0 -> exists x, In x l /\ x > 0.
Proof.
  induction l as [|x l IH]; intros H.
  - unfold sum in H. cbn in H. lia.
  - rewrite sum_cons in H. destruct (Z.gtb_spec x 0) as [Hx | Hx].
    + exists x. split; [now left | lia].
    + destruct IH as [y [Hy Hpos]]; [lia|]. exists y. split; [now right | exact Hpos].
Qed.

(** X10. Whenever the figure is drawn (line 207: [total_revenue > 0]) the
    chart has at least one link, from a revenue item with a positive value
    into Total Revenue. *)
Theorem drawn_chart_has_revenue_link (t : Trans) (h : Holders) :
  shows_chart h = true ->
  exists c name v, build t h = Some c /\
    In (name, v) (revenue_items h) /\ v > 0 /\
    In (Some name, Some (tr_total_revenue t), v) (edge_labels c).
Proof.
  unfold shows_chart, total_revenue. intros H.
  destruct (sum_positive_element (dict_values (revenue_items h))) as [v [Hv Hpos]];
    [lia|].
  unfold dict_values in Hv. apply in_map_iff in Hv.
  destruct Hv as [[name v'] [E Hin]]. cbn in E. subst v'.
  destruct (build_spec t h) as [c [Hb [_ HR]]].
  exists c, name, v. split; [exact Hb|]. split; [exact Hin|]. split; [exact Hpos|].
  rewrite (represents_edge_labels c _ HR).
  apply (In_lift_flow (name, tr_total_revenue t, v)).
  unfold flow_spec. apply in_or_app. left. apply in_map_iff.
  exists (name, v). split; [reflexivity | now apply positive_items_In].
Qed.

Lemma drawn_chart_has_revenue_link_witness :
  exists c name v,
    build (TRANS English)
          {| revenue_items := [("A", 0); ("B", 50)]; cogs_value := 60;
             expense_items := [("R&D", 20)] |} = Some c /\
    In (name, v) [("A", 0); ("B", 50)] /\ v > 0 /\
    In (Some name, Some "Total Revenue", v) (edge_labels c).
Proof.
  apply (drawn_chart_has_revenue_link (TRANS English)
           {| revenue_items := [("A", 0); ("B", 50)]; cogs_value := 60;
              expense_items := [("R&D", 20)] |}).
  reflexivity.
Defined.

(** X11. A link from a node to itself exists exactly when a revenue item
    with a positive value is named like the Total Revenue node or an
    expense item with a positive value is named like the Gross Profit
    node; with other item names no link is a loop. *)
Theorem self_loop_iff (lang : Lang) (h : Holders) :
  exists c, build (TRANS lang) h = Some c /\
    ((exists i v, In (i, i, v) (edges c)) <->
     (exists v, In (tr_total_revenue (TRANS lang), v) (revenue_items h) /\ v > 0) \/
     (exists v, In (tr_gross_profit (TRANS lang), v) (expense_items h) /\ v > 0)).
Proof.
  destruct (build_spec (TRANS lang) h) as [c [Hb [_ HR]]]. exists c.
  split; [exact Hb|]. destruct HR as [_ [He Hin]].
  rewrite Forall_forall in Hin.
  assert (D1 : tr_total_revenue (TRANS lang) <> tr_cogs_label (TRANS lang))
    by (destruct lang; discriminate).
  assert (D2 : tr_total_revenue (TRANS lang) <> tr_gross_profit (TRANS lang))
    by (destruct lang; discriminate).
  assert (D3 : tr_gross_profit (TRANS lang) <> tr_net_income (TRANS lang))
    by (destruct lang; discriminate).
  split.
  - intros [i [v Hi]]. rewrite He in Hi. apply in_map_iff in Hi.
    destruct Hi as [[[a b] v'] [E Hf]]. cbn in E. injection E as Ea Eb ->.
    destruct (Hin _ Hf) as [Ha Hb']. cbn in Ha, Hb'.
    assert (a = b) by (apply (index_of_injective (labels c)); congruence).
    subst b. unfold flow_spec in Hf. rewrite !in_app_iff in Hf.
    destruct Hf as [Hf | [Hf | [Hf | [Hf | Hf]]]].
    + apply in_map_iff in Hf. destruct Hf as [[n x] [E Hp]].
      injection E as -> <- ->. left. exists v. now apply positive_items_In.
    + destruct (cogs_value h >? 0); [|contradiction].
      destruct Hf as [E | []]. congruence.
    + destruct (gross_profit h >? 0); [|contradiction].
      destruct Hf as [E | []]. congruence.
    + apply in_map_iff in Hf. destruct Hf as [[n x] [E Hp]].
      injection E as <- -> ->. right. exists v. now apply positive_items_In.
    + destruct (net_income h >? 0); [|contradiction].
      destruct Hf as [E | []]. congruence.
  - intros [[v [Hv Hpos]] | [v [Hv Hpos]]].
    + exists (index_of (tr_total_revenue (TRANS lang)) (labels c)), v.
      rewrite He.
      apply (in_map (resolve (labels c)) _
               (tr_total_revenue (TRANS lang), tr_total_revenue (TRANS lang), v)).
      unfold flow_spec. apply in_or_app. left. apply in_map_iff.
      exists (tr_total_revenue (TRANS lang), v).
      split; [reflexivity | now apply positive_items_In].
    + exists (index_of (tr_gross_profit (TRANS lang)) (labels c)), v.
      rewrite He.
      apply (in_map (resolve (labels c)) _
               (tr_gross_profit (TRANS lang), tr_gross_profit (TRANS lang), v)).
      unfold flow_spec. do 3 (apply in_or_app; right). apply in_or_app. left.
      apply in_map_iff. exists (tr_gross_profit (TRANS lang), v).
      split; [reflexivity | now apply positive_items_In].
Qed.

(** ** The classification of longer type texts *)







(** ** The order of the nodes *)

Lemma index_of_app_r (x : string) (ls more : list string) :
  ~ In x ls -> In x more ->
  index_of x (ls ++ more) = (List.length ls + index_of x more)%nat.
Proof.
  intros Hn Hm. induction ls as [|y ls IH]; [reflexivity|].
  rewrite <- app_comm_cons, index_of_cons
    by (right; apply in_or_app; now right).
  destruct (String.eqb_spec y x) as [-> | Hne]; [exfalso; apply Hn; now left|].
  cbn [List.length]. rewrite IH; [lia|]. intros H. apply Hn. now right.
Qed.

Lemma index_of_app_cases (x : string) (ls more : list string) :
  In x (ls ++ more) ->
  (In x ls /\ index_of x (ls ++ more) = index_of x ls /\
   (index_of x ls < List.length ls)%nat) \/
  (~ In x ls /\ In x more /\
   index_of x (ls ++ more) = (List.length ls + index_of x more)%nat).
Proof.
  intros H. destruct (list_mem x ls) eqn:E.
  - apply list_mem_In in E. left. split; [exact E|].
    split; [now apply index_of_app | now apply index_of_lt].
  - apply list_mem_not_In in E. right. apply in_app_or in H.
    destruct H as [H | H]; [contradiction|].
    split; [exact E|]. split; [exact H | now apply index_of_app_r].
Qed.

(** Dropping repeated requests keeps the order of the first requests. *)
Lemma fold_add_label_order (names ls : list string) (a b : string) :
  In a (fold_left add_label names ls) ->
  In b (fold_left add_label names ls) ->
  (index_of a (fold_left add_label names ls)
   < index_of b (fold_left add_label names ls))%nat ->
  (index_of a (ls ++ names) < index_of b (ls ++ names))%nat.
Proof.
  revert ls. induction names as [|n names IH]; intros ls Ha Hb Hlt.
  - cbn in *. now rewrite app_nil_r.
  - cbn [fold_left] in *. specialize (IH _ Ha Hb Hlt).
    unfold add_label in IH. destruct (list_mem n ls) eqn:E.
    + apply list_mem_In in E.
      assert (Ia : In a (ls ++ names)).
      { apply fold_add_label_In in Ha. rewrite add_label_In in Ha.
        apply in_or_app. intuition (subst; auto). }
      assert (Ib : In b (ls ++ names)).
      { apply fold_add_label_In in Hb. rewrite add_label_In in Hb.
        apply in_or_app. intuition (subst; auto). }
      assert (Step : forall x, In x (ls ++ names) ->
                (In x ls /\ index_of x (ls ++ names) = index_of x ls /\
                 index_of x (ls ++ n :: names) = index_of x ls /\
                 (index_of x ls < List.length ls)%nat) \/
                (~ In x ls /\
                 index_of x (ls ++ names)
                 = (List.length ls + index_of x names)%nat /\
                 index_of x (ls ++ n :: names)
                 = (List.length ls + S (index_of x names))%nat)).
      { intros x Hx. destruct (index_of_app_cases x ls names Hx)
          as [[H1 [H2 H3]] | [H1 [H2 H3]]].
        - left. repeat split; auto. now apply index_of_app.
        - right. repeat split; auto.
          rewrite index_of_app_r by (auto; now right).
          rewrite index_of_cons by now right.
          destruct (String.eqb_spec n x) as [-> | _]; [contradiction | reflexivity]. }
      destruct (Step a Ia) as [[_ [A1 [A2 A3]]] | [_ [A1 A2]]];
        destruct (Step b Ib) as [[_ [B1 [B2 B3]]] | [_ [B1 B2]]]; lia.
    + rewrite <- app_assoc in IH. exact IH.
Qed.

(** X14. The node list is the sequence of labels in the order in which the
    script asks for them (Total Revenue, the revenue items with a positive
    value, the cost-of-revenue label, Gross Profit, the expense items with
    a positive value, Net Income if positive), a label asked for again
    keeping its first place: a node stands before another one only if it
    was first asked for before it, and when the labels asked for are
    pairwise distinct the node list is that sequence itself. *)
Theorem node_order (t : Trans) (h : Holders) :
  exists c, build t h = Some c /\
    labels c = fold_left add_label (requested_labels t h) [] /\
    (forall a b : string,
       In a (labels c) -> In b (labels c) ->
       (index_of a (labels c) < index_of b (labels c))%nat ->
       (index_of a (requested_labels t h)
        < index_of b (requested_labels t h))%nat) /\
    (NoDup (requested_labels t h) -> labels c = requested_labels t h).
Proof.
  destruct (build_spec t h) as [c [Hb [Hl _]]]. exists c.
  split; [exact Hb|]. split; [exact Hl|]. split.
  - rewrite Hl. intros a b Ha Hb' Hlt.
    apply (fold_add_label_order _ [] a b Ha Hb' Hlt).
  - intros Hnd. rewrite Hl. now apply (fold_add_label_fresh _ []).
Qed.

Lemma node_order_witness :
  exists c,
    build (TRANS English)
          {| revenue_items := [("A", 100); ("B", 50)]; cogs_value := 60;
             expense_items := [("R&D", 20)] |} = Some c /\
    labels c = [ "Total Revenue"; "A"; "B"; "Cost of Revenue (COGS)";
                 "Gross Profit"; "R&D"; "Net Income" ].
Proof.
  destruct (node_order (TRANS English)
              {| revenue_items := [("A", 100); ("B", 50)]; cogs_value := 60;
                 expense_items := [("R&D", 20)] |}) as [c [Hb [_ [_ Hnd]]]].
  exists c. split; [exact Hb|]. apply Hnd.
  vm_compute. repeat (constructor; [cbn; intuition discriminate|]). constructor.
Defined.
